(** * database-alchemy: the query and filter engine

    A shallow embedding of [database_alchemy/db_query.py] and of the
    record types of [database_alchemy/db_create.py], with the properties
    of the query functions, of the flattening of joined rows into a data
    frame and of the tabular filter. *)

From Stdlib Require Import List String Ascii Bool ZArith QArith Lia Permutation.
Import ListNotations.

Local Open Scope string_scope.
Local Open Scope Z_scope.
Local Open Scope list_scope.

(** ** Python values *)

(** [datetime.date]: ordered as the tuple (year, month, day). *)
Record date := mkdate { year : Z; month : Z; day : Z }.

Definition date_compare (a b : date) : comparison :=
  match year a ?= year b with
  | Eq => match month a ?= month b with
          | Eq => day a ?= day b
          | c => c
          end
  | c => c
  end.

(** The scalar objects held by a column of the schema, a value of the
    JSON metrics document or a cell of a data frame.  A finite float is
    given by the rational it holds; [VNaN] is the float [nan], the marker
    pandas writes into a cell without data.  Metrics values are the JSON
    scalars: flattening copies a value without looking into it, and the
    filter compares cells with scalars only. *)
Inductive value :=
| VNone
| VNaN
| VBool (b : bool)
| VInt (n : Z)
| VFloat (f : Q)
| VStr (s : string)
| VDate (d : date).

(** [bool(x)], the test behind [if x:]. *)
Class Truthy (A : Type) := truthy : A -> bool.

#[export] Instance truthy_Z : Truthy Z := fun n => negb (n =? 0).
#[export] Instance truthy_string : Truthy string :=
  fun s => match s with EmptyString => false | _ => true end.
#[export] Instance truthy_list {A} : Truthy (list A) :=
  fun l => match l with [] => false | _ => true end.
#[export] Instance truthy_value : Truthy value :=
  fun v => match v with
           | VNone => false
           | VNaN => true
           | VBool b => b
           | VInt n => truthy n
           | VFloat f => negb (Qeq_bool f 0)
           | VStr s => truthy s
           | VDate _ => true
           end.

(** The exceptions the modelled code lets escape. *)
Inductive type_error :=
| Unorderable
| UnexpectedKeyword (name : string)
| MultipleValues (name : string)
| MissingArgument (name : string)
| TooManyPositional.

Inductive exn :=
| KeyError (key : string)
| TypeError (why : type_error).

Inductive result (A : Type) :=
| Ok (a : A)
| Raise (e : exn).
Arguments Ok {A} a.
Arguments Raise {A} e.

Definition bind {A B} (m : result A) (k : A -> result B) : result B :=
  match m with
  | Ok a => k a
  | Raise e => Raise e
  end.

Notation "x <- m ;; k" := (bind m (fun x => k))
  (at level 61, m at next level, right associativity).

Fixpoint mapM {A B} (f : A -> result B) (l : list A) : result (list B) :=
  match l with
  | [] => Ok []
  | a :: l' => b <- f a ;; bs <- mapM f l' ;; Ok (b :: bs)
  end.

(** *** Comparison of a cell with a scalar

    pandas compares an object column with a scalar cell by cell: a null
    on either side compares false under [==], [<] and [>]; otherwise the
    Python comparison of the two objects decides, and the [TypeError] of
    an ordering between unrelated types escapes. *)

Definition is_null (v : value) : bool :=
  match v with
  | VNone | VNaN => true
  | _ => false
  end.

(** [bool], [int] and [float] compare by numeric value. *)
Definition as_number (v : value) : option Q :=
  match v with
  | VBool b => Some (inject_Z (if b then 1 else 0))
  | VInt n => Some (inject_Z n)
  | VFloat f => Some f
  | _ => None
  end.

Definition py_eq (x v : value) : bool :=
  if is_null x || is_null v then false
  else match as_number x, as_number v with
       | Some a, Some b => Qeq_bool a b
       | _, _ =>
           match x, v with
           | VStr a, VStr b => String.eqb a b
           | VDate a, VDate b =>
               match date_compare a b with Eq => true | _ => false end
           | _, _ => false
           end
       end.

(** The three-way comparison behind [<] and [>]; [None] where Python
    raises [TypeError]. *)
Definition py_compare (x v : value) : option comparison :=
  match as_number x, as_number v with
  | Some a, Some b => Some (a ?= b)%Q
  | _, _ =>
      match x, v with
      | VStr a, VStr b => Some (String.compare a b)
      | VDate a, VDate b => Some (date_compare a b)
      | _, _ => None
      end
  end.

Definition py_gt (x v : value) : result bool :=
  if is_null x || is_null v then Ok false
  else match py_compare x v with
       | Some Gt => Ok true
       | Some _ => Ok false
       | None => Raise (TypeError Unorderable)
       end.

Definition py_lt (x v : value) : result bool :=
  if is_null x || is_null v then Ok false
  else match py_compare x v with
       | Some Lt => Ok true
       | Some _ => Ok false
       | None => Raise (TypeError Unorderable)
       end.

(** ** [collections.OrderedDict] *)

Definition OrderedDict := list (string * value).

(** [d[k] = v]: an existing key keeps its place, a new one goes last. *)
Fixpoint od_set (k : string) (v : value) (d : OrderedDict) : OrderedDict :=
  match d with
  | [] => [(k, v)]
  | (k', v') :: d' =>
      if String.eqb k' k then (k', v) :: d' else (k', v') :: od_set k v d'
  end.

(** [d.update(items)]. *)
Definition od_update (d : OrderedDict) (items : list (string * value))
  : OrderedDict :=
  fold_left (fun acc kv => od_set (fst kv) (snd kv) acc) items d.

(** [OrderedDict(items)]. *)
Definition od_of_items (items : list (string * value)) : OrderedDict :=
  od_update [] items.

Fixpoint od_get (k : string) (d : OrderedDict) : option value :=
  match d with
  | [] => None
  | (k', v') :: d' => if String.eqb k' k then Some v' else od_get k d'
  end.

Definition od_keys (d : OrderedDict) : list string := map fst d.

(** ** The schema of [db_create.py]

    The three mapped classes, with the nullable columns as options.  The
    columns [analysis_id] and [date] of [Analysis] and [sample_id] of
    [Result] are the fields [a_analysis_id], [a_date] and [r_sample_id];
    the relationship attributes are not used by the queries. *)

Record Analysis := mkAnalysis {
  a_analysis_id : Z;
  analysis_name : string;
  a_date : option date;
  department : string;
  analyst : string
}.

Record Sample := mkSample {
  sample_id : Z;
  sample_name : string;
  sample_type : option string;
  sample_description : option string;
  analysis_id : option Z
}.

Record Result := mkResult {
  result_id : Z;
  r_sample_id : option Z;
  metrics : list (string * value)
}.

(** The rows a session reads, table by table. *)
Record Session := mkSession {
  analyses : list Analysis;
  samples : list Sample;
  results : list Result
}.

Definition of_option {A} (inj : A -> value) (o : option A) : value :=
  match o with
  | Some a => inj a
  | None => VNone
  end.

(** [Analysis.display]. *)
Definition display (self : Analysis) : OrderedDict :=
  od_of_items [("analysis_id", VInt (a_analysis_id self));
               ("analysis_name", VStr (analysis_name self));
               ("date", of_option VDate (a_date self));
               ("department", VStr (department self));
               ("analyst", VStr (analyst self))].

(** ** [pandas.DataFrame]

    A frame by its column names and its rows, each row with its label in
    the index and its cells in column order.  The cells are the Python
    objects the records hold; the storage type pandas picks for a column
    is not modelled. *)

Record DFRow := mkrow { label : nat; cells : list value }.

Record DataFrame := mkframe { columns : list string; rows : list DFRow }.

Definition mem (k : string) (l : list string) : bool :=
  existsb (String.eqb k) l.

(** The keys of the records in order of first appearance. *)
Fixpoint add_keys (cols : list string) (ks : list string) : list string :=
  match ks with
  | [] => cols
  | k :: ks' => add_keys (if mem k cols then cols else cols ++ [k]) ks'
  end.

Definition union_keys (records : list OrderedDict) : list string :=
  fold_left (fun cols r => add_keys cols (od_keys r)) records [].

Definition cell_of (r : OrderedDict) (c : string) : value :=
  match od_get c r with
  | Some v => v
  | None => VNaN
  end.

Fixpoint number_from {A} (i : nat) (l : list A) : list (nat * A) :=
  match l with
  | [] => []
  | a :: l' => (i, a) :: number_from (S i) l'
  end.

(** [pd.DataFrame(records)] for a list of dictionaries: one column per
    key, one row per record under the labels 0, 1, ..., and [nan] where a
    record has no value for a column. *)
Definition DataFrame_of_records (records : list OrderedDict) : DataFrame :=
  let cols := union_keys records in
  mkframe cols
    (map (fun ir => mkrow (fst ir) (map (cell_of (snd ir)) cols))
         (number_from 0%nat records)).

Fixpoint index_of (c : string) (cols : list string) : option nat :=
  match cols with
  | [] => None
  | c' :: cols' =>
      if String.eqb c' c then Some 0%nat
      else option_map S (index_of c cols')
  end.

Definition cell_at (i : nat) (r : DFRow) : value := nth i (cells r) VNaN.

(** [df[c]] for a column name: the cells of that column, or [KeyError]. *)
Definition getitem (df : DataFrame) (c : string) : result (list value) :=
  match index_of c (columns df) with
  | Some i => Ok (map (cell_at i) (rows df))
  | None => Raise (KeyError c)
  end.

(** [df[mask]] for a boolean series: the rows under a true entry. *)
Fixpoint select {A} (l : list A) (mask : list bool) : list A :=
  match l, mask with
  | a :: l', b :: mask' => if b then a :: select l' mask' else select l' mask'
  | _, _ => []
  end.

Definition getitem_mask (df : DataFrame) (mask : list bool) : DataFrame :=
  mkframe (columns df) (select (rows df) mask).

(** ** [db_query.py] *)

(** The body of the loop of [return_dataframe]: the row of one joined
    record, the sample's name and analysis id updated with the items of
    the result's metrics. *)
Definition flatten_record (record : Result * Sample) : OrderedDict :=
  let (result, sample) := record in
  let row := od_of_items [("sample_name", VStr (sample_name sample));
                          ("analysis_id", of_option VInt (analysis_id sample))] in
  od_update row (metrics result).

(** [return_dataframe]. *)
Definition return_dataframe (query : list (Result * Sample)) : DataFrame :=
  DataFrame_of_records (map flatten_record query).

(** [filter_dataframe]: the entries of [filter_kwargs] in mapping order. *)
Fixpoint filter_dataframe (df : DataFrame)
    (filter_kwargs : list (string * value)) : result DataFrame :=
  match filter_kwargs with
  | [] => Ok df
  | (column_name, value) :: rest =>
      if truthy value then
        if String.eqb column_name "date_after" then
          col <- getitem df "date" ;;
          mask <- mapM (fun x => py_gt x value) col ;;
          filter_dataframe (getitem_mask df mask) rest
        else if String.eqb column_name "date_before" then
          col <- getitem df "date" ;;
          mask <- mapM (fun x => py_lt x value) col ;;
          filter_dataframe (getitem_mask df mask) rest
        else
          col <- getitem df column_name ;;
          filter_dataframe
            (getitem_mask df (map (fun x => py_eq x value) col)) rest
      else filter_dataframe df rest
  end.

(** [get_analyses]. *)
Definition get_analyses (session : Session) : DataFrame :=
  DataFrame_of_records (map display (analyses session)).

(** [session.query(Result, Sample).join(Sample)]: the inner join on the
    foreign key [results.sample_id = samples.sample_id], read result by
    result in table order.  A null foreign key joins nothing. *)
Definition joins (r : Result) (s : Sample) : bool :=
  match r_sample_id r with
  | Some i => i =? sample_id s
  | None => false
  end.

Definition query_Result_Sample (session : Session) : list (Result * Sample) :=
  flat_map (fun r => map (pair r) (filter (joins r) (samples session)))
           (results session).

(** The argument of a query function, as its docstring types it:
    [None] (the default), one value, or a [list] of values. *)
Inductive arg (A : Type) :=
| ArgNone
| ArgOne (a : A)
| ArgList (l : list A).
Arguments ArgNone {A}.
Arguments ArgOne {A} a.
Arguments ArgList {A} l.

#[export] Instance truthy_arg {A} `{Truthy A} : Truthy (arg A) :=
  fun x => match x with
           | ArgNone => false
           | ArgOne a => truthy a
           | ArgList l => truthy l
           end.

Definition isinstance_list {A} (x : arg A) : bool :=
  match x with
  | ArgList _ => true
  | _ => false
  end.

(** SQL [column = a] and [column IN (l)]: a null column satisfies
    neither. *)
Definition sql_eq {A} (eqb : A -> A -> bool) (column : option A) (a : A)
  : bool :=
  match column with
  | Some c => eqb c a
  | None => false
  end.

Definition sql_in {A} (eqb : A -> A -> bool) (column : option A) (l : list A)
  : bool :=
  match column with
  | Some c => existsb (eqb c) l
  | None => false
  end.

(** [get_results_by_analysis]. *)
Definition get_results_by_analysis (session : Session) (analysis_id_ : arg Z)
  : DataFrame :=
  let query := query_Result_Sample session in
  let query :=
    if truthy analysis_id_ && isinstance_list analysis_id_ then
      match analysis_id_ with
      | ArgList l =>
          filter (fun rs => sql_in Z.eqb (analysis_id (snd rs)) l) query
      | _ => query
      end
    else if truthy analysis_id_ then
      match analysis_id_ with
      | ArgOne a =>
          filter (fun rs => sql_eq Z.eqb (analysis_id (snd rs)) a) query
      | _ => query
      end
    else query in
  return_dataframe query.

(** [get_results_by_sample]; [samples.sample_name] is not nullable. *)
Definition get_results_by_sample (session : Session) (sample_name_ : arg string)
  : DataFrame :=
  let query := query_Result_Sample session in
  let query :=
    if truthy sample_name_ && isinstance_list sample_name_ then
      match sample_name_ with
      | ArgList l =>
          filter (fun rs => sql_in String.eqb (Some (sample_name (snd rs))) l)
                 query
      | _ => query
      end
    else if truthy sample_name_ then
      match sample_name_ with
      | ArgOne a =>
          filter (fun rs => sql_eq String.eqb (Some (sample_name (snd rs))) a)
                 query
      | _ => query
      end
    else query in
  return_dataframe query.

(** ** The command line of [db_query.py] *)

(** *** click: the parameter name of an option

    An option declared as [('-n', '--analyst-name')] is handed to the
    command's function under the name click derives from the
    declarations: a declaration that is an identifier names it; otherwise
    the first declaration under the longest prefix does, with its dashes
    turned into underscores, in lower case. *)

Definition in_range (lo hi : nat) (c : ascii) : bool :=
  (lo <=? nat_of_ascii c)%nat && (nat_of_ascii c <=? hi)%nat.

Definition is_alnum (c : ascii) : bool :=
  in_range 48 57 c || in_range 65 90 c || in_range 97 122 c.

Definition is_identifier (s : string) : bool :=
  match s with
  | EmptyString => false
  | String c _ =>
      negb (in_range 48 57 c)
      && forallb (fun x => is_alnum x || Ascii.eqb x "_"%char)
                 (list_ascii_of_string s)
  end.

Definition split_opt (opt : string) : string * string :=
  match opt with
  | EmptyString => ("", "")
  | String first rest =>
      if is_alnum first then ("", opt)
      else match rest with
           | String second rest' =>
               if Ascii.eqb second first
               then (String first (String second ""), rest')
               else (String first "", rest)
           | EmptyString => (String first "", rest)
           end
  end.

Definition lower (c : ascii) : ascii :=
  if in_range 65 90 c then ascii_of_nat (nat_of_ascii c + 32) else c.

Definition to_python_name (s : string) : string :=
  string_of_list_ascii
    (map (fun c => lower (if Ascii.eqb c "-"%char then "_"%char else c))
         (list_ascii_of_string s)).

(** The first of the candidates under the longest prefix. *)
Fixpoint first_longest (best : string * string)
    (candidates : list (string * string)) : string * string :=
  match candidates with
  | [] => best
  | c :: candidates' =>
      first_longest
        (if (String.length (fst best) <? String.length (fst c))%nat
         then c else best)
        candidates'
  end.

Definition option_name (decls : list string) : option string :=
  match find is_identifier decls with
  | Some name => Some name
  | None =>
      match map split_opt decls with
      | [] => None
      | c :: candidates =>
          Some (to_python_name (snd (first_longest c candidates)))
      end
  end.

(** *** Python: binding the arguments of a call

    A call with [nargs] positional and the keyword arguments [kwargs] of
    a function with the positional-or-keyword parameters [params], none
    with a default: the keywords are matched
    first, then the count of positional arguments is checked, then the
    parameters left without a value are reported. *)

Fixpoint check_keywords (params : list string) (nargs : nat)
    (kwargs : list (string * value)) : result unit :=
  match kwargs with
  | [] => Ok tt
  | (k, _) :: kwargs' =>
      match index_of k params with
      | None => Raise (TypeError (UnexpectedKeyword k))
      | Some i =>
          if (i <? nargs)%nat then Raise (TypeError (MultipleValues k))
          else check_keywords params nargs kwargs'
      end
  end.

Fixpoint bind_keywords (params : list string) (kwargs : list (string * value))
  : result (list (string * value)) :=
  match params with
  | [] => Ok []
  | p :: params' =>
      match od_get p kwargs with
      | None => Raise (TypeError (MissingArgument p))
      | Some v => bound <- bind_keywords params' kwargs ;; Ok ((p, v) :: bound)
      end
  end.

Definition bind_arguments (params : list string) (nargs : nat)
    (kwargs : list (string * value)) : result (list (string * value)) :=
  _ <- check_keywords params nargs kwargs ;;
  if (List.length params <? nargs)%nat then Raise (TypeError TooManyPositional)
  else bind_keywords (skipn nargs params) kwargs.

(** *** [display_analyses] *)

(** [ctx.obj], as [cli] fills it. *)
Record Context := mkContext {
  ctx_session : Session;
  ctx_output_csv : option string
}.

Inductive output :=
| Echo (df : DataFrame)
| ToCsv (path : string) (df : DataFrame).

(** The options the decorators of [display_analyses] declare, each with
    its default; the default of [--date-before] is the day the module is
    loaded. *)
Definition display_analyses_options (today : date)
  : list (list string * value) :=
  [(["-a"; "--date-after"], VDate (mkdate 2015 1 1));
   (["-b"; "--date-before"], VDate today);
   (["-d"; "--department"], VNone);
   (["-n"; "--analyst-name"], VNone)].

(** The parameters of [def display_analyses(...)]. *)
Definition display_analyses_params : list string :=
  ["ctx"; "date_after"; "date_before"; "department"; "analyst"].

(** The body of [display_analyses]. *)
Definition display_analyses (ctx : Context)
    (date_after date_before department_ analyst_ : value) : result output :=
  let session := ctx_session ctx in
  let output_csv := ctx_output_csv ctx in
  let filter_kwargs := [("date_after", date_after);
                        ("date_before", date_before);
                        ("department", department_);
                        ("analyst", analyst_)] in
  let df := get_analyses session in
  df <- filter_dataframe df filter_kwargs ;;
  match output_csv with
  | Some path => if truthy path then Ok (ToCsv path df) else Ok (Echo df)
  | None => Ok (Echo df)
  end.

(** The keyword arguments click builds: for each declared option, its
    parameter name with the value given on the command line, or with the
    default. *)
Definition click_params (options : list (list string * value))
    (given : list (string * value)) : list (string * value) :=
  flat_map
    (fun o =>
       match option_name (fst o) with
       | Some name =>
           [(name, match od_get name given with
                   | Some v => v
                   | None => snd o
                   end)]
       | None => []
       end)
    options.

(** Running the command: click calls the function with the context (from
    [pass_context]) and the keyword arguments. *)
Definition invoke_display_analyses (today : date) (ctx : Context)
    (given : list (string * value)) : result output :=
  let kwargs := click_params (display_analyses_options today) given in
  bound <- bind_arguments display_analyses_params 1 kwargs ;;
  display_analyses ctx (cell_of bound "date_after")
                   (cell_of bound "date_before")
                   (cell_of bound "department")
                   (cell_of bound "analyst").

(** ** Reading a frame *)

(** The cell of row [r] under the column named [c], if the frame has it. *)
Definition column_value (cols : list string) (c : string) (r : DFRow)
  : option value :=
  option_map (fun i => cell_at i r) (index_of c cols).

(** The value a key is given last in a list of items. *)
Definition last_value (k : string) (items : list (string * value))
  : option value :=
  od_get k (rev items).

(** ** The queries, as the specification words them *)

(** The joined rows whose sample's analysis id equals [A]. *)
Definition rows_of_analysis (session : Session) (A : Z)
  : list (Result * Sample) :=
  filter (fun rs => match analysis_id (snd rs) with
                    | Some a => a =? A
                    | None => false
                    end)
         (query_Result_Sample session).

(** The joined rows whose sample name equals [n]. *)
Definition rows_named (session : Session) (n : string)
  : list (Result * Sample) :=
  filter (fun rs => String.eqb (sample_name (snd rs)) n)
         (query_Result_Sample session).

(** The joined rows whose sample name is one of [S], each once. *)
Definition rows_named_in (session : Session) (S : list string)
  : list (Result * Sample) :=
  filter (fun rs => mem (sample_name (snd rs)) S)
         (query_Result_Sample session).

(** The reading of results-by-sample that holds for every list of names,
    the empty one too: the frame is that of the rows named by some
    element of the list. *)
Definition by_sample_is_union : Prop :=
  forall session S,
  exists selected,
    get_results_by_sample session (ArgList S) = return_dataframe selected
    /\ forall rs,
         In rs selected <-> exists n, In n S /\ In rs (rows_named session n).

(** ** The tabular filter, as the specification words it *)

(** What an entry of the filter mapping asks of a row: nothing when its
    value is falsy; under [date_after] a [date] cell strictly greater
    than the value, under [date_before] one strictly less; under any
    other name a cell of that very column equal to the value. *)
Definition entry_keeps (cols : list string) (entry : string * value)
    (r : DFRow) : bool :=
  let (name, v) := entry in
  if negb (truthy v) then true
  else if String.eqb name "date_after" then
    match column_value cols "date" r with
    | Some x => match py_gt x v with Ok b => b | Raise _ => false end
    | None => false
    end
  else if String.eqb name "date_before" then
    match column_value cols "date" r with
    | Some x => match py_lt x v with Ok b => b | Raise _ => false end
    | None => false
    end
  else
    match column_value cols name r with
    | Some x => py_eq x v
    | None => false
    end.

(** The entries compose conjunctively. *)
Definition keeps (cols : list string) (filter_kwargs : list (string * value))
    (r : DFRow) : bool :=
  forallb (fun entry => entry_keeps cols entry r) filter_kwargs.

(** The reading of the failure on an unknown column that makes it a
    lookup failure whatever the rest of the mapping. *)
Definition absent_column_always_KeyError : Prop :=
  forall df filter_kwargs k v,
    In (k, v) filter_kwargs -> truthy v = true ->
    k <> "date_after" -> k <> "date_before" ->
    ~ In k (columns df) ->
    exists c, filter_dataframe df filter_kwargs = Raise (KeyError c).

(** When the filter can be applied: a cell and a value that [<] and [>]
    accept, and an entry whose column the frame has, with cells its value
    can be compared with. *)
Definition comparable (x v : value) : bool :=
  is_null x || is_null v
  || match py_compare x v with Some _ => true | None => false end.

Definition entry_applicable (df : DataFrame) (entry : string * value) : Prop :=
  let (k, v) := entry in
  truthy v = true ->
  if String.eqb k "date_after" || String.eqb k "date_before" then
    exists i, index_of "date" (columns df) = Some i
              /\ forall r, In r (rows df) -> comparable (cell_at i r) v = true
  else In k (columns df).

(** The table of the specification's example: rows dated 2019-12-31 and
    2020-06-01. *)
Definition df_dates : DataFrame :=
  mkframe ["date"]
          [mkrow 0 [VDate (mkdate 2019 12 31)];
           mkrow 1 [VDate (mkdate 2020 6 1)]].

Definition df_departments : DataFrame :=
  mkframe ["analysis_id"; "department"]
          [mkrow 0 [VInt 1; VStr "QC"]; mkrow 1 [VInt 2; VStr "RD"]].

(** ** Sample data *)

(** The floats written [37.2] and [7.1], by the rationals they hold. *)
Definition float_37_2 : Q := 2617717283409101 # 70368744177664.
Definition float_7_1 : Q := 3996944669291315 # 562949953421312.

Definition ex_result : Result :=
  mkResult 1 (Some 1) [("temp", VFloat float_37_2); ("ph", VFloat float_7_1)].

Definition ex_sample : Sample := mkSample 1 "S01" None None (Some 1).

(** Two results of one sample that measure different things. *)
Definition ex_mixed : list (Result * Sample) :=
  [(mkResult 1 (Some 1) [("temp", VFloat float_37_2)], ex_sample);
   (mkResult 2 (Some 1) [("ph", VFloat float_7_1)], ex_sample)].

(** Two analyses with one sample and one result each. *)
Definition ex_session : Session :=
  mkSession
    [mkAnalysis 1 "assay" (Some (mkdate 2019 12 31)) "QC" "DMT";
     mkAnalysis 2 "assay" (Some (mkdate 2020 6 1)) "RD" "DMT"]
    [ex_sample; mkSample 2 "S02" None None (Some 2)]
    [ex_result; mkResult 2 (Some 2) [("ph", VFloat float_7_1)]].

(** ** The analyses listing, as the code builds it *)

(** The keys of [Analysis.display], in its order, and the values under
    them. *)
Definition analyses_columns : list string :=
  ["analysis_id"; "analysis_name"; "date"; "department"; "analyst"].

Definition analysis_cells (a : Analysis) : list value :=
  [VInt (a_analysis_id a); VStr (analysis_name a);
   of_option VDate (a_date a); VStr (department a); VStr (analyst a)].

Definition analysis_row (ia : nat * Analysis) : DFRow :=
  mkrow (fst ia) (analysis_cells (snd ia)).

(** What an optional text filter of [display_analyses] asks of a field:
    nothing when it is [None] or empty. *)
Definition wanted (o : option string) (s : string) : bool :=
  match o with
  | Some w => if truthy w then String.eqb s w else true
  | None => true
  end.

(** The analyses [display_analyses] lists between two dates: those with
    a date strictly after the first and strictly before the second, of
    the department and the analyst asked for. *)
Definition listed (after before : date) (dept an : option string)
    (a : Analysis) : bool :=
  match a_date a with
  | Some d =>
      match date_compare d after, date_compare d before with
      | Gt, Lt => true
      | _, _ => false
      end
  | None => false
  end
  && wanted dept (department a) && wanted an (analyst a).

(** Where [display_analyses] sends the frame. *)
Definition sent_to (output_csv : option string) (df : DataFrame) : output :=
  match output_csv with
  | Some path => if truthy path then ToCsv path df else Echo df
  | None => Echo df
  end.

Definition ex_ctx : Context := mkContext ex_session None.

Definition ex_empty_ctx : Context := mkContext (mkSession [] [] []) None.

(** ** The frame of joined rows, as the code builds it *)

(** The row of the [i]-th joined record under the columns [cols]. *)
Definition flat_row (cols : list string) (ir : nat * (Result * Sample))
  : DFRow :=
  mkrow (fst ir) (map (cell_of (flatten_record (snd ir))) cols).

(** The selection a truthy argument of results-by-analysis makes. *)
Definition analysis_selected (x : arg Z) (a : Z) : Prop :=
  match x with
  | ArgNone => False
  | ArgOne b => a = b
  | ArgList l => In a l
  end.

(** The column an entry of the filter mapping reads. *)
Definition column_read (k : string) : string :=
  if String.eqb k "date_after" || String.eqb k "date_before"
  then "date" else k.

(** ** What pandas stores and compares

    The frames above keep in each cell the object the record holds and
    compare numbers by their exact values.  pandas stores a column of
    numbers in one machine type: in a column that also holds a float or
    lacks a value, [None] is stored as [nan] and an integer as the float
    nearest to it; and it compares a column of machine numbers with a
    number in floating point.  The two agree on the integers that a float
    holds exactly, those of magnitude up to 2^53.  The definitions below
    say where a statement on the frames above is one on the frames of
    pandas. *)

(** The integer a float holds when an integer of less than 1024 bits is
    converted: the nearest with 53 significant bits, ties to even. *)
Definition round_to_double (n : Z) : Z :=
  let m := Z.abs n in
  if m <? 2 ^ 53 then n
  else
    let e := Z.log2 m - 52 in
    let q := Z.shiftr m e in
    let r := m - Z.shiftl q e in
    let half := 2 ^ (e - 1) in
    let q' := if (half <? r) || ((r =? half) && Z.odd q) then q + 1 else q in
    Z.sgn n * Z.shiftl q' e.

(** The cell a column may hold for a value of a record: the value, or
    [nan] for [None], or the nearest float for an integer. *)
Definition stored_as (v cell : value) : Prop :=
  cell = v
  \/ (v = VNone /\ cell = VNaN)
  \/ exists n, v = VInt n /\ cell = VFloat (inject_Z (round_to_double n)).




(** A column that holds an object in some row, [None], a string or a
    date, is a column of objects, compared cell by cell. *)
Definition holds_objects (df : DataFrame) (i : nat) : Prop :=
  exists r, In r (rows df) /\ cell_at i r <> VNaN
            /\ as_number (cell_at i r) = None.

(** An entry the filter can apply whatever the machine type of the
    column: as [entry_applicable], and a date bound that is not a number
    meets a [date] column of objects. *)
Definition entry_surely_applicable (df : DataFrame) (entry : string * value)
  : Prop :=
  entry_applicable df entry
  /\ (truthy (snd entry) = true ->
      String.eqb (fst entry) "date_after"
      || String.eqb (fst entry) "date_before" = true ->
      is_null (snd entry) = false -> as_number (snd entry) = None ->
      forall i, index_of "date" (columns df) = Some i -> holds_objects df i).

(** * Properties *)

(** ** Facts on ordered dictionaries *)

Lemma od_get_set k v d c :
  od_get c (od_set k v d) = if String.eqb k c then Some v else od_get c d.
Proof.
  induction d as [|[k' v'] d IH]; simpl; [reflexivity|].
  destruct (String.eqb k' k) eqn:E; simpl.
  - apply String.eqb_eq in E; subst k'.
    destruct (String.eqb k c); reflexivity.
  - destruct (String.eqb k' c) eqn:E2.
    + apply String.eqb_eq in E2; subst k'.
      rewrite String.eqb_sym, E. reflexivity.
    + exact IH.
Qed.

Lemma od_get_app c (d1 d2 : OrderedDict) :
  od_get c (d1 ++ d2)
  = match od_get c d1 with Some v => Some v | None => od_get c d2 end.
Proof.
  induction d1 as [|[k v] d1 IH]; simpl; [reflexivity|].
  destruct (String.eqb k c); [reflexivity | exact IH].
Qed.

Lemma od_get_update c items : forall d,
  od_get c (od_update d items)
  = match last_value c items with Some v => Some v | None => od_get c d end.
Proof.
  unfold od_update, last_value.
  induction items as [|[k v] items IH]; intros d; simpl; [reflexivity|].
  rewrite IH, od_get_app, od_get_set. simpl.
  destruct (od_get c (rev items)); [reflexivity|].
  destruct (String.eqb k c); reflexivity.
Qed.

Lemma mem_In k l : mem k l = true <-> In k l.
Proof.
  unfold mem. rewrite existsb_exists. split.
  - intros [x [Hx E]]. apply String.eqb_eq in E. now subst.
  - intros H. exists k. split; [assumption | apply String.eqb_refl].
Qed.

Lemma mem_not_In k l : mem k l = false <-> ~ In k l.
Proof.
  rewrite <- mem_In. destruct (mem k l); split; congruence.
Qed.

Lemma od_get_None c d : od_get c d = None <-> ~ In c (od_keys d).
Proof.
  induction d as [|[k v] d IH]; simpl.
  - tauto.
  - destruct (String.eqb k c) eqn:E.
    + apply String.eqb_eq in E. split; [discriminate | intros H; tauto].
    + apply String.eqb_neq in E. rewrite IH. tauto.
Qed.

Lemma od_get_Some_In c d v : od_get c d = Some v -> In c (od_keys d).
Proof.
  intros H. destruct (in_dec string_dec c (od_keys d)) as [Hin|Hn];
    [assumption|].
  apply od_get_None in Hn. congruence.
Qed.

Lemma od_keys_set k v d :
  od_keys (od_set k v d)
  = if mem k (od_keys d) then od_keys d else od_keys d ++ [k].
Proof.
  unfold od_keys.
  induction d as [|[k' v'] d IH]; simpl; [reflexivity|].
  rewrite (String.eqb_sym k k').
  destruct (String.eqb k' k); simpl; [reflexivity|].
  rewrite IH.
  destruct (mem k (map fst d)); reflexivity.
Qed.

Lemma od_keys_update items : forall d,
  od_keys (od_update d items) = add_keys (od_keys d) (map fst items).
Proof.
  unfold od_update.
  induction items as [|[k v] items IH]; intros d; simpl; [reflexivity|].
  rewrite IH, od_keys_set. reflexivity.
Qed.

Lemma add_keys_In c ks : forall cols,
  In c (add_keys cols ks) <-> In c cols \/ In c ks.
Proof.
  induction ks as [|k ks IH]; intros cols; simpl; [tauto|].
  rewrite IH. destruct (mem k cols) eqn:E.
  - apply mem_In in E. split; [tauto|].
    intros [H|[H|H]]; subst; tauto.
  - rewrite in_app_iff. simpl. tauto.
Qed.

Lemma add_keys_NoDup ks : forall cols,
  NoDup cols -> NoDup (add_keys cols ks).
Proof.
  induction ks as [|k ks IH]; intros cols H; simpl; [assumption|].
  apply IH. destruct (mem k cols) eqn:E; [assumption|].
  apply mem_not_In in E.
  apply NoDup_app; [assumption | repeat constructor; simpl; tauto |].
  intros x Hx [Hk|[]]. subst. tauto.
Qed.

(** ** Facts on frames built from records *)

Lemma index_of_None c cols : index_of c cols = None <-> ~ In c cols.
Proof.
  induction cols as [|c' cols IH]; simpl; [tauto|].
  destruct (String.eqb c' c) eqn:E.
  - apply String.eqb_eq in E. split; [discriminate | tauto].
  - apply String.eqb_neq in E.
    destruct (index_of c cols); simpl.
    + split; [discriminate|]. intros H. exfalso. apply H. right.
      destruct (in_dec string_dec c cols) as [Hin|Hn]; [assumption|].
      apply IH in Hn. discriminate.
    + split; [|reflexivity]. intros _ [H|H]; [congruence|].
      now apply (proj1 IH).
Qed.

Lemma index_of_In c cols : In c cols -> exists j, index_of c cols = Some j.
Proof.
  intros H. destruct (index_of c cols) as [j|] eqn:E; [now exists j|].
  apply index_of_None in E. contradiction.
Qed.

Lemma index_of_Some_In c cols j : index_of c cols = Some j -> In c cols.
Proof.
  intros H. destruct (in_dec string_dec c cols) as [Hin|Hn]; [assumption|].
  apply index_of_None in Hn. congruence.
Qed.

Lemma index_of_map (f : string -> value) c : forall cols j,
  index_of c cols = Some j -> nth j (map f cols) VNaN = f c.
Proof.
  induction cols as [|c' cols IH]; intros j; simpl; [discriminate|].
  destruct (String.eqb c' c) eqn:E.
  - apply String.eqb_eq in E. intros [= <-]. now subst.
  - destruct (index_of c cols) as [j'|]; simpl; [|discriminate].
    intros [= <-]. now apply IH.
Qed.

Lemma column_value_map (f : string -> value) cols c i :
  In c cols -> column_value cols c (mkrow i (map f cols)) = Some (f c).
Proof.
  intros H. unfold column_value.
  destruct (index_of_In _ _ H) as [j Hj]. rewrite Hj. simpl.
  unfold cell_at. simpl. f_equal. now apply index_of_map.
Qed.

Lemma union_keys_acc_In c records : forall acc,
  In c (fold_left (fun cols r => add_keys cols (od_keys r)) records acc)
  <-> In c acc \/ exists r, In r records /\ In c (od_keys r).
Proof.
  induction records as [|r records IH]; intros acc; simpl.
  - split; [tauto | intros [H|[r [[] _]]]; assumption].
  - rewrite IH, add_keys_In. split.
    + intros [[H|H]|[r' [H1 H2]]]; eauto.
    + intros [H|[r' [[->|H1] H2]]]; eauto.
Qed.

Lemma union_keys_In c records :
  In c (union_keys records) <-> exists r, In r records /\ In c (od_keys r).
Proof.
  unfold union_keys. rewrite union_keys_acc_In. simpl. tauto.
Qed.

Lemma union_keys_NoDup records : NoDup (union_keys records).
Proof.
  unfold union_keys. generalize (NoDup_nil string).
  generalize (@nil string).
  induction records as [|r records IH]; intros acc H; simpl; [assumption|].
  apply IH. now apply add_keys_NoDup.
Qed.

Lemma number_from_nth {A} (l : list A) : forall k i,
  nth_error (number_from k l) i
  = option_map (pair (k + i)%nat) (nth_error l i).
Proof.
  induction l as [|a l IH]; intros k [|i]; simpl; try reflexivity.
  - now rewrite Nat.add_0_r.
  - rewrite IH. now rewrite Nat.add_succ_r.
Qed.

Lemma DataFrame_of_records_nth records i :
  nth_error (rows (DataFrame_of_records records)) i
  = option_map
      (fun r => mkrow i (map (cell_of r) (union_keys records)))
      (nth_error records i).
Proof.
  unfold DataFrame_of_records. simpl.
  rewrite nth_error_map, number_from_nth.
  destruct (nth_error records i); reflexivity.
Qed.

Lemma DataFrame_of_records_length records :
  List.length (rows (DataFrame_of_records records)) = List.length records.
Proof.
  unfold DataFrame_of_records. simpl. rewrite length_map.
  generalize 0%nat. induction records as [|r records IH]; intros k; simpl;
    [reflexivity | now rewrite IH].
Qed.

(** ** Flattening *)

Lemma flatten_record_get (result : Result) (sample : Sample) c :
  od_get c (flatten_record (result, sample))
  = match last_value c (metrics result) with
    | Some v => Some v
    | None =>
        if String.eqb "sample_name" c
        then Some (VStr (sample_name sample))
        else if String.eqb "analysis_id" c
             then Some (of_option VInt (analysis_id sample))
             else None
    end.
Proof.
  unfold flatten_record. rewrite od_get_update. reflexivity.
Qed.

Lemma flatten_record_keys (rs : Result * Sample) c :
  In c (od_keys (flatten_record rs))
  <-> c = "sample_name" \/ c = "analysis_id"
      \/ In c (map fst (metrics (fst rs))).
Proof.
  destruct rs as [result sample]. unfold flatten_record.
  rewrite od_keys_update, add_keys_In. simpl.
  intuition congruence.
Qed.

Lemma last_value_None c items :
  last_value c items = None <-> ~ In c (map fst items).
Proof.
  unfold last_value. rewrite od_get_None. unfold od_keys.
  rewrite map_rev, <- in_rev. tauto.
Qed.

Lemma return_dataframe_nth query i rs :
  nth_error query i = Some rs ->
  nth_error (rows (return_dataframe query)) i
  = Some (mkrow i (map (cell_of (flatten_record rs))
                       (columns (return_dataframe query)))).
Proof.
  intros H. unfold return_dataframe.
  rewrite DataFrame_of_records_nth, nth_error_map, H. reflexivity.
Qed.

Lemma return_dataframe_columns query c :
  In c (columns (return_dataframe query))
  <-> exists rs, In rs query /\ In c (od_keys (flatten_record rs)).
Proof.
  unfold return_dataframe, DataFrame_of_records. simpl.
  rewrite union_keys_In. split.
  - intros [r [Hr Hc]]. apply in_map_iff in Hr as [rs [<- Hrs]]. eauto.
  - intros [rs [Hrs Hc]]. exists (flatten_record rs).
    split; [now apply in_map | assumption].
Qed.

Lemma return_dataframe_cell query rs i c :
  In c (columns (return_dataframe query)) ->
  column_value (columns (return_dataframe query)) c
    (mkrow i (map (cell_of (flatten_record rs))
                  (columns (return_dataframe query))))
  = Some (cell_of (flatten_record rs) c).
Proof.
  intros H. now apply column_value_map.
Qed.

Lemma return_dataframe_length query :
  List.length (rows (return_dataframe query)) = List.length query.
Proof.
  unfold return_dataframe.
  now rewrite DataFrame_of_records_length, length_map.
Qed.

(** The row of the [i]-th joined record: under each key of the flattened
    record, the value the record holds. *)
Lemma return_dataframe_row query i rs :
  nth_error query i = Some rs ->
  exists r,
    nth_error (rows (return_dataframe query)) i = Some r
    /\ label r = i
    /\ forall c v,
         od_get c (flatten_record rs) = Some v ->
         column_value (columns (return_dataframe query)) c r = Some v.
Proof.
  intros Hnth. eexists.
  split; [exact (return_dataframe_nth _ _ _ Hnth)|].
  split; [reflexivity|].
  intros c v Hget. rewrite return_dataframe_cell.
  - unfold cell_of. now rewrite Hget.
  - apply return_dataframe_columns. exists rs.
    split; [eapply nth_error_In; eauto | eapply od_get_Some_In; eauto].
Qed.

Lemma return_dataframe_In_row query row :
  In row (rows (return_dataframe query)) ->
  exists i rs,
    nth_error query i = Some rs
    /\ nth_error (rows (return_dataframe query)) i = Some row.
Proof.
  intros Hin. apply In_nth_error in Hin as [i Hi]. exists i.
  destruct (nth_error query i) as [rs|] eqn:E; [now exists rs|].
  apply nth_error_None in E. rewrite <- return_dataframe_length in E.
  apply nth_error_None in E. congruence.
Qed.

Lemma flatten_sample_name (result : Result) (sample : Sample) :
  ~ In "sample_name" (map fst (metrics result)) ->
  od_get "sample_name" (flatten_record (result, sample))
  = Some (VStr (sample_name sample)).
Proof.
  intros Hn. apply last_value_None in Hn.
  now rewrite flatten_record_get, Hn.
Qed.

Lemma flatten_analysis_id (result : Result) (sample : Sample) :
  ~ In "analysis_id" (map fst (metrics result)) ->
  od_get "analysis_id" (flatten_record (result, sample))
  = Some (of_option VInt (analysis_id sample)).
Proof.
  intros Hn. apply last_value_None in Hn.
  now rewrite flatten_record_get, Hn.
Qed.

(** C3.  Flattening the joined pair of a result with the metrics
    [{"temp": 37.2, "ph": 7.1}] and a sample named "S01" of analysis 1
    gives the one row [{sample_name: "S01", analysis_id: 1, temp: 37.2,
    ph: 7.1}].  In general the frame has one row per joined pair, in
    order and labelled by position; the row of a pair has a cell under
    [sample_name], the sample's name unless the metrics document has a key
    of that name, a cell under [analysis_id] and a cell under every key of
    the metrics document.  These cells are the sample's analysis id and
    the key's value as the column stores them: the value itself, or [nan]
    for [None] and the nearest float for an integer. *)
Theorem return_dataframe_one_row_per_pair :
  return_dataframe [(ex_result, ex_sample)]
  = mkframe ["sample_name"; "analysis_id"; "temp"; "ph"]
            [mkrow 0 [VStr "S01"; VInt 1; VFloat float_37_2; VFloat float_7_1]]
  /\ forall query,
       List.length (rows (return_dataframe query)) = List.length query
       /\ forall i rs,
            nth_error query i = Some rs ->
            exists r,
              nth_error (rows (return_dataframe query)) i = Some r
              /\ label r = i
              /\ List.length (cells r)
                 = List.length (columns (return_dataframe query))
              /\ (exists v,
                    column_value (columns (return_dataframe query))
                                 "sample_name" r = Some v
                    /\ (~ In "sample_name" (map fst (metrics (fst rs))) ->
                        v = VStr (sample_name (snd rs))))
              /\ (exists v,
                    column_value (columns (return_dataframe query))
                                 "analysis_id" r = Some v
                    /\ (~ In "analysis_id" (map fst (metrics (fst rs))) ->
                        stored_as (of_option VInt (analysis_id (snd rs))) v))
              /\ (forall k,
                    In k (map fst (metrics (fst rs))) ->
                    exists x v,
                      last_value k (metrics (fst rs)) = Some x
                      /\ column_value (columns (return_dataframe query))
                                      k r = Some v
                      /\ stored_as x v).
Proof.
  split; [reflexivity|].
  intros query. split; [apply return_dataframe_length|].
  intros i [result sample] Hnth.
  assert (Hin : In (result, sample) query) by (eapply nth_error_In; eauto).
  assert (Hcol : forall c,
             c = "sample_name" \/ c = "analysis_id"
             \/ In c (map fst (metrics result)) ->
             In c (columns (return_dataframe query))).
  { intros c Hc. apply return_dataframe_columns.
    exists (result, sample). split; [assumption|].
    now apply flatten_record_keys. }
  eexists. split; [exact (return_dataframe_nth _ _ _ Hnth)|].
  split; [reflexivity|]. split; [simpl; now rewrite length_map|].
  simpl fst. simpl snd.
  repeat split.
  - rewrite return_dataframe_cell by auto. eexists. split; [reflexivity|].
    intros Hn. unfold cell_of. now rewrite (flatten_sample_name _ _ Hn).
  - rewrite return_dataframe_cell by auto. eexists. split; [reflexivity|].
    intros Hn. left. unfold cell_of.
    now rewrite (flatten_analysis_id _ _ Hn).
  - intros k Hk. rewrite return_dataframe_cell by auto.
    destruct (last_value k (metrics result)) as [x|] eqn:E.
    + exists x, x. split; [reflexivity|]. split; [|now left].
      unfold cell_of. now rewrite flatten_record_get, E.
    + apply last_value_None in E. contradiction.
Qed.

Lemma return_dataframe_one_row_per_pair_witness :
  nth_error [(ex_result, ex_sample)] 0 = Some (ex_result, ex_sample)
  /\ exists r,
       nth_error (rows (return_dataframe [(ex_result, ex_sample)])) 0 = Some r
       /\ label r = 0%nat
       /\ (exists v,
             column_value (columns (return_dataframe [(ex_result, ex_sample)]))
                          "sample_name" r = Some v
             /\ v = VStr "S01")
       /\ (exists v,
             column_value (columns (return_dataframe [(ex_result, ex_sample)]))
                          "analysis_id" r = Some v
             /\ stored_as (VInt 1) v)
       /\ (exists x v,
             last_value "temp" (metrics ex_result) = Some x
             /\ column_value (columns (return_dataframe [(ex_result, ex_sample)]))
                             "temp" r = Some v
             /\ stored_as x v).
Proof.
  split; [reflexivity|].
  destruct (proj2 (proj2 return_dataframe_one_row_per_pair
                     [(ex_result, ex_sample)])
              0%nat (ex_result, ex_sample) eq_refl)
    as [r [H1 [H2 [_ [[v1 [H3 H3']] [[v2 [H4 H4']] H5]]]]]].
  exists r. split; [exact H1|]. split; [exact H2|].
  split.
  - exists v1. split; [exact H3|]. apply H3'. simpl.
    intros [H|[H|[]]]; discriminate H.
  - split.
    + exists v2. split; [exact H4|]. apply H4'. simpl.
      intros [H|[H|[]]]; discriminate H.
    + apply H5. simpl. left. reflexivity.
Defined.

(** C7.  Flattening is total: whatever the metrics keys of the joined
    pairs, it gives a frame with one row per pair.  The columns of the
    frame, each listed once, are the union over the pairs of
    [sample_name], [analysis_id] and the pair's metrics keys, and the row
    of a pair holds [nan] under every column that is not one of its own
    keys. *)
Theorem return_dataframe_heterogeneous (query : list (Result * Sample)) :
  List.length (rows (return_dataframe query)) = List.length query
  /\ NoDup (columns (return_dataframe query))
  /\ (forall c,
        In c (columns (return_dataframe query))
        <-> exists rs,
              In rs query
              /\ (c = "sample_name" \/ c = "analysis_id"
                  \/ In c (map fst (metrics (fst rs)))))
  /\ (forall i rs,
        nth_error query i = Some rs ->
        exists r,
          nth_error (rows (return_dataframe query)) i = Some r
          /\ List.length (cells r)
             = List.length (columns (return_dataframe query))
          /\ forall c,
               In c (columns (return_dataframe query)) ->
               c <> "sample_name" -> c <> "analysis_id" ->
               ~ In c (map fst (metrics (fst rs))) ->
               column_value (columns (return_dataframe query)) c r
               = Some VNaN).
Proof.
  split.
  { unfold return_dataframe.
    now rewrite DataFrame_of_records_length, length_map. }
  split; [apply union_keys_NoDup|].
  split.
  { intros c. rewrite return_dataframe_columns.
    split; intros [rs [H1 H2]]; exists rs; split; try assumption;
      now apply flatten_record_keys. }
  intros i rs Hnth.
  eexists. split; [exact (return_dataframe_nth _ _ _ Hnth)|].
  split; [simpl; now rewrite length_map|].
  intros c Hc Hs Ha Hm. rewrite return_dataframe_cell by assumption.
  unfold cell_of.
  destruct (od_get c (flatten_record rs)) as [v|] eqn:E; [|reflexivity].
  apply od_get_Some_In, flatten_record_keys in E. tauto.
Qed.

Lemma return_dataframe_heterogeneous_witness :
  nth_error ex_mixed 1 = Some (mkResult 2 (Some 1) [("ph", VFloat float_7_1)],
                               ex_sample)
  /\ columns (return_dataframe ex_mixed)
     = ["sample_name"; "analysis_id"; "temp"; "ph"]
  /\ exists r,
       nth_error (rows (return_dataframe ex_mixed)) 1 = Some r
       /\ column_value (columns (return_dataframe ex_mixed)) "temp" r
          = Some VNaN.
Proof.
  split; [reflexivity|]. split; [reflexivity|].
  destruct (proj2 (proj2 (proj2 (return_dataframe_heterogeneous ex_mixed)))
              1%nat _ eq_refl) as [r [H1 [_ H2]]].
  exists r. split; [exact H1|].
  apply H2.
  - simpl. right. right. left. reflexivity.
  - discriminate.
  - discriminate.
  - simpl. intros [H|[]]. discriminate H.
Defined.

(** ** The tabular filter *)

Lemma select_map {A} (f : A -> bool) (l : list A) :
  select l (map f l) = filter f l.
Proof.
  induction l as [|a l IH]; simpl; [reflexivity|].
  rewrite IH. reflexivity.
Qed.

Lemma select_In {A} (a : A) : forall l mask, In a (select l mask) -> In a l.
Proof.
  induction l as [|x l IH]; intros [|b mask]; simpl; try tauto.
  destruct b; simpl; intros H; [destruct H|]; eauto.
Qed.

Lemma filter_filter {A} (f g : A -> bool) (l : list A) :
  filter g (filter f l) = filter (fun x => f x && g x) l.
Proof.
  induction l as [|a l IH]; simpl; [reflexivity|].
  destruct (f a); simpl; [destruct (g a)|]; now rewrite IH.
Qed.

Lemma mapM_Ok {A B} (f : A -> result B) (g : A -> B) (l : list A) :
  (forall a b, f a = Ok b -> g a = b) ->
  forall bs, mapM f l = Ok bs -> bs = map g l.
Proof.
  intros Hfg. induction l as [|a l IH]; simpl; intros bs H.
  - now inversion H.
  - destruct (f a) as [b|e] eqn:E; simpl in H; [|discriminate].
    destruct (mapM f l) as [bs'|e]; simpl in H; [|discriminate].
    inversion H; subst. now rewrite (Hfg a b E), (IH bs').
Qed.

Lemma getitem_Ok df c col :
  getitem df c = Ok col ->
  exists i, index_of c (columns df) = Some i
            /\ col = map (cell_at i) (rows df).
Proof.
  unfold getitem. destruct (index_of c (columns df)) as [i|];
    [|discriminate].
  intros [= <-]. now exists i.
Qed.

Lemma getitem_Raise df c e :
  getitem df c = Raise e -> e = KeyError c /\ ~ In c (columns df).
Proof.
  unfold getitem. destruct (index_of c (columns df)) as [i|] eqn:E;
    [discriminate|].
  intros [= <-]. split; [reflexivity | now apply index_of_None].
Qed.

Lemma mapM_py_Raise (f : value -> result bool) l e :
  (forall x e', f x = Raise e' -> e' = TypeError Unorderable) ->
  mapM f l = Raise e -> e = TypeError Unorderable.
Proof.
  intros Hf. induction l as [|a l IH]; simpl; [discriminate|].
  destruct (f a) as [b|e'] eqn:E; simpl.
  - destruct (mapM f l) as [bs|e'']; simpl; [discriminate|].
    intros [= <-]. now apply IH.
  - intros [= <-]. now apply (Hf a).
Qed.

Lemma py_gt_Raise x v e : py_gt x v = Raise e -> e = TypeError Unorderable.
Proof.
  unfold py_gt. destruct (is_null x || is_null v); [discriminate|].
  destruct (py_compare x v) as [[| |]|]; congruence.
Qed.

Lemma py_lt_Raise x v e : py_lt x v = Raise e -> e = TypeError Unorderable.
Proof.
  unfold py_lt. destruct (is_null x || is_null v); [discriminate|].
  destruct (py_compare x v) as [[| |]|]; congruence.
Qed.

(** One step of the loop: what the frame becomes when an entry with a
    truthy value is applied without error. *)
Lemma masked_rows df c i (g : value -> bool) :
  index_of c (columns df) = Some i ->
  getitem_mask df (map g (map (cell_at i) (rows df)))
  = mkframe (columns df)
            (filter (fun r => match column_value (columns df) c r with
                              | Some x => g x
                              | None => false
                              end) (rows df)).
Proof.
  intros Hi. unfold getitem_mask. f_equal.
  rewrite map_map, select_map. apply filter_ext.
  intros r. unfold column_value. now rewrite Hi.
Qed.

Lemma filter_dataframe_rows : forall filter_kwargs df df',
  filter_dataframe df filter_kwargs = Ok df' ->
  columns df' = columns df
  /\ rows df' = filter (keeps (columns df) filter_kwargs) (rows df).
Proof.
  induction filter_kwargs as [|[k v] rest IH]; intros df df' H; simpl in H.
  - inversion H; subst. split; [reflexivity|].
    simpl. clear. induction (rows df') as [|r l IHl]; simpl; congruence.
  - assert (Hstep : forall c (g : value -> bool) i,
               index_of c (columns df) = Some i ->
               (forall r, entry_keeps (columns df) (k, v) r
                          = match column_value (columns df) c r with
                            | Some x => g x
                            | None => false
                            end) ->
               filter_dataframe
                 (getitem_mask df (map g (map (cell_at i) (rows df)))) rest
               = Ok df' ->
               columns df' = columns df
               /\ rows df'
                  = filter (keeps (columns df) ((k, v) :: rest)) (rows df)).
    { intros c g i Hi Hk Hrec. rewrite (masked_rows df c i g Hi) in Hrec.
      apply IH in Hrec as [Hc Hr]. simpl in Hc, Hr.
      split; [assumption|].
      rewrite Hr, filter_filter. apply filter_ext.
      intros r. cbv beta.
      change (keeps (columns df) ((k, v) :: rest) r)
        with (entry_keeps (columns df) (k, v) r
              && keeps (columns df) rest r).
      now rewrite Hk. }
    destruct (truthy v) eqn:Tv.
    + destruct (String.eqb k "date_after") eqn:Ea;
        [|destruct (String.eqb k "date_before") eqn:Eb].
      * destruct (getitem df "date") as [col|e] eqn:G; simpl in H;
          [|discriminate].
        apply getitem_Ok in G as [i [Hi ->]].
        destruct (mapM (fun x => py_gt x v) (map (cell_at i) (rows df)))
          as [mask|e] eqn:M; simpl in H; [|discriminate].
        apply (mapM_Ok _ (fun x => match py_gt x v with
                                   | Ok b => b
                                   | Raise _ => false
                                   end)) in M;
          [|intros a b Hab; now rewrite Hab].
        subst mask. refine (Hstep "date" _ i Hi _ H).
        intros r. simpl. now rewrite Tv, Ea.
      * destruct (getitem df "date") as [col|e] eqn:G; simpl in H;
          [|discriminate].
        apply getitem_Ok in G as [i [Hi ->]].
        destruct (mapM (fun x => py_lt x v) (map (cell_at i) (rows df)))
          as [mask|e] eqn:M; simpl in H; [|discriminate].
        apply (mapM_Ok _ (fun x => match py_lt x v with
                                   | Ok b => b
                                   | Raise _ => false
                                   end)) in M;
          [|intros a b Hab; now rewrite Hab].
        subst mask. refine (Hstep "date" _ i Hi _ H).
        intros r. simpl. now rewrite Tv, Ea, Eb.
      * destruct (getitem df k) as [col|e] eqn:G; simpl in H;
          [|discriminate].
        apply getitem_Ok in G as [i [Hi ->]].
        refine (Hstep k (fun x => py_eq x v) i Hi _ H).
        intros r. simpl. now rewrite Tv, Ea, Eb.
    + apply IH in H as [Hc Hr]. split; [assumption|].
      rewrite Hr. apply filter_ext. intros r. simpl. now rewrite Tv.
Qed.






(** C5.  A filter mapping whose values are all falsy returns the table
    as it is. *)
Theorem filter_dataframe_falsy_identity df filter_kwargs :
  (forall k v, In (k, v) filter_kwargs -> truthy v = false) ->
  filter_dataframe df filter_kwargs = Ok df.
Proof.
  induction filter_kwargs as [|[k v] rest IH]; intros H; simpl;
    [reflexivity|].
  rewrite (H k v (or_introl eq_refl)).
  apply IH. intros k' v' Hin. apply (H k' v'). now right.
Qed.

Lemma filter_dataframe_falsy_identity_witness :
  filter_dataframe df_departments
    [("department", VNone); ("analyst", VStr ""); ("analysis_id", VInt 0)]
  = Ok df_departments.
Proof.
  apply filter_dataframe_falsy_identity.
  intros k v [H|[H|[H|[]]]]; inversion H; reflexivity.
Defined.

(** *** When the filter returns and when it fails *)

Lemma mapM_total {A B} (f : A -> result B) (l : list A) :
  (forall a, In a l -> exists b, f a = Ok b) ->
  exists bs, mapM f l = Ok bs.
Proof.
  induction l as [|a l IH]; intros H; simpl; [now exists []|].
  destruct (H a (or_introl eq_refl)) as [b ->].
  destruct IH as [bs ->]; [intros a' Ha'; apply H; now right|].
  simpl. now exists (b :: bs).
Qed.

Lemma comparable_py_gt x v :
  comparable x v = true -> exists b, py_gt x v = Ok b.
Proof.
  unfold comparable, py_gt.
  destruct (is_null x || is_null v); simpl; [now exists false|].
  destruct (py_compare x v) as [[| |]|]; [eauto ..|discriminate].
Qed.

Lemma comparable_py_lt x v :
  comparable x v = true -> exists b, py_lt x v = Ok b.
Proof.
  unfold comparable, py_lt.
  destruct (is_null x || is_null v); simpl; [now exists false|].
  destruct (py_compare x v) as [[| |]|]; [eauto ..|discriminate].
Qed.

Lemma entry_applicable_mask df mask entry :
  entry_applicable df entry -> entry_applicable (getitem_mask df mask) entry.
Proof.
  destruct entry as [k v]. unfold entry_applicable. simpl.
  intros H Tv. specialize (H Tv).
  destruct (String.eqb k "date_after" || String.eqb k "date_before");
    [|assumption].
  destruct H as [i [Hi Hr]]. exists i. split; [assumption|].
  intros r Hin. apply Hr. now apply select_In in Hin.
Qed.

(** The filter returns a table whenever each entry with a truthy value
    names a column of the table whose cells its value can be compared
    with. *)
Lemma filter_dataframe_Ok : forall filter_kwargs df,
  (forall entry, In entry filter_kwargs -> entry_applicable df entry) ->
  exists df', filter_dataframe df filter_kwargs = Ok df'.
Proof.
  induction filter_kwargs as [|[k v] rest IH]; intros df H; simpl;
    [now exists df|].
  assert (Hrest : forall mask entry,
             In entry rest -> entry_applicable (getitem_mask df mask) entry).
  { intros mask entry Hin. apply entry_applicable_mask, H. now right. }
  pose proof (H (k, v) (or_introl eq_refl)) as Hk. simpl in Hk.
  destruct (truthy v) eqn:Tv; [|apply IH; intros e He; apply H; now right].
  specialize (Hk eq_refl).
  destruct (String.eqb k "date_after") eqn:Ea;
    [|destruct (String.eqb k "date_before") eqn:Eb]; simpl in Hk.
  - destruct Hk as [i [Hi Hr]]. unfold getitem. rewrite Hi. simpl.
    destruct (mapM_total (fun x => py_gt x v) (map (cell_at i) (rows df)))
      as [mask ->].
    { intros x Hx. apply in_map_iff in Hx as [r [<- Hin]].
      now apply comparable_py_gt, Hr. }
    simpl. apply IH. now apply Hrest.
  - destruct Hk as [i [Hi Hr]]. unfold getitem. rewrite Hi. simpl.
    destruct (mapM_total (fun x => py_lt x v) (map (cell_at i) (rows df)))
      as [mask ->].
    { intros x Hx. apply in_map_iff in Hx as [r [<- Hin]].
      now apply comparable_py_lt, Hr. }
    simpl. apply IH. now apply Hrest.
  - destruct (index_of_In _ _ Hk) as [i Hi]. unfold getitem. rewrite Hi.
    simpl. apply IH. now apply Hrest.
Qed.

Lemma filter_dataframe_app : forall pre post df,
  filter_dataframe df (pre ++ post)
  = (df1 <- filter_dataframe df pre ;; filter_dataframe df1 post).
Proof.
  induction pre as [|[k v] pre IH]; intros post df; simpl; [reflexivity|].
  destruct (truthy v); [|apply IH].
  destruct (String.eqb k "date_after");
    [|destruct (String.eqb k "date_before")].
  - destruct (getitem df "date") as [col|e]; simpl; [|reflexivity].
    destruct (mapM (fun x => py_gt x v) col) as [mask|e]; simpl;
      [apply IH | reflexivity].
  - destruct (getitem df "date") as [col|e]; simpl; [|reflexivity].
    destruct (mapM (fun x => py_lt x v) col) as [mask|e]; simpl;
      [apply IH | reflexivity].
  - destruct (getitem df k) as [col|e]; simpl; [apply IH | reflexivity].
Qed.

(** The failures of the filter: the lookup of a column the table lacks,
    or an ordering that Python refuses. *)
Lemma filter_dataframe_Raise : forall filter_kwargs df e,
  filter_dataframe df filter_kwargs = Raise e ->
  (exists c, e = KeyError c /\ ~ In c (columns df))
  \/ e = TypeError Unorderable.
Proof.
  induction filter_kwargs as [|[k v] rest IH]; intros df e H; simpl in H;
    [discriminate|].
  destruct (truthy v); [|now apply IH].
  destruct (String.eqb k "date_after");
    [|destruct (String.eqb k "date_before")].
  - destruct (getitem df "date") as [col|e'] eqn:G; simpl in H.
    + destruct (mapM (fun x => py_gt x v) col) as [mask|e''] eqn:M;
        simpl in H.
      * now apply IH in H.
      * inversion H; subst. right.
        eapply mapM_py_Raise; [|exact M]. intros x; apply py_gt_Raise.
    + inversion H; subst. apply getitem_Raise in G as [-> Hn]. left. eauto.
  - destruct (getitem df "date") as [col|e'] eqn:G; simpl in H.
    + destruct (mapM (fun x => py_lt x v) col) as [mask|e''] eqn:M;
        simpl in H.
      * now apply IH in H.
      * inversion H; subst. right.
        eapply mapM_py_Raise; [|exact M]. intros x; apply py_lt_Raise.
    + inversion H; subst. apply getitem_Raise in G as [-> Hn]. left. eauto.
  - destruct (getitem df k) as [col|e'] eqn:G; simpl in H.
    + now apply IH in H.
    + inversion H; subst. apply getitem_Raise in G as [-> Hn]. left. eauto.
Qed.

Lemma filter_dataframe_absent_here df k v post :
  truthy v = true -> k <> "date_after" -> k <> "date_before" ->
  ~ In k (columns df) ->
  filter_dataframe df ((k, v) :: post) = Raise (KeyError k).
Proof.
  intros Tv Na Nb Hn. simpl. rewrite Tv.
  apply String.eqb_neq in Na, Nb. rewrite Na, Nb.
  unfold getitem. apply index_of_None in Hn. now rewrite Hn.
Qed.

(** C8, amended.  A filter mapping that has an entry with a truthy value
    under a key, other than [date_after] and [date_before], that names no
    column of the table never returns a table: it fails, with the lookup
    failure of a column the table lacks or with the type error of a date
    comparison; when the entries before that one apply without error, it
    fails with the lookup failure of that very key. *)
Theorem filter_dataframe_absent_column df filter_kwargs k v :
  In (k, v) filter_kwargs -> truthy v = true ->
  k <> "date_after" -> k <> "date_before" ->
  ~ In k (columns df) ->
  (exists e,
      filter_dataframe df filter_kwargs = Raise e
      /\ ((exists c, e = KeyError c /\ ~ In c (columns df))
          \/ e = TypeError Unorderable))
  /\ (forall pre post df1,
        filter_kwargs = pre ++ (k, v) :: post ->
        filter_dataframe df pre = Ok df1 ->
        filter_dataframe df filter_kwargs = Raise (KeyError k)).
Proof.
  intros Hin Tv Na Nb Hn.
  assert (Hfirst : forall pre post df1,
             filter_kwargs = pre ++ (k, v) :: post ->
             filter_dataframe df pre = Ok df1 ->
             filter_dataframe df filter_kwargs = Raise (KeyError k)).
  { intros pre post df1 -> Hpre. rewrite filter_dataframe_app, Hpre.
    cbn [bind]. apply filter_dataframe_absent_here; try assumption.
    apply filter_dataframe_rows in Hpre as [-> _]. assumption. }
  split; [|exact Hfirst].
  apply in_split in Hin as [pre [post Hsplit]].
  destruct (filter_dataframe df pre) as [df1|e] eqn:Hpre.
  - exists (KeyError k). split; [now apply (Hfirst pre post df1)|].
    left. now exists k.
  - exists e. split.
    + subst filter_kwargs. now rewrite filter_dataframe_app, Hpre.
    + now apply filter_dataframe_Raise in Hpre.
Qed.

Lemma filter_dataframe_absent_column_witness :
  filter_dataframe df_dates
    [("date_after", VDate (mkdate 2020 1 1)); ("department", VStr "QC")]
  = Raise (KeyError "department").
Proof.
  refine (proj2 (filter_dataframe_absent_column df_dates
                   [("date_after", VDate (mkdate 2020 1 1));
                    ("department", VStr "QC")]
                   "department" (VStr "QC") _ _ _ _ _)
                [("date_after", VDate (mkdate 2020 1 1))] []
                (mkframe ["date"] [mkrow 1 [VDate (mkdate 2020 6 1)]])
                eq_refl eq_refl).
  - simpl. right. left. reflexivity.
  - reflexivity.
  - discriminate.
  - discriminate.
  - simpl. intros [H|[]]. discriminate H.
Defined.

(** With [date_after] given as the string "2020-01-01" and a
    department asked of a table that has only dates, the filter fails on
    the comparison of a date with a string, before the column is looked
    up. *)
Lemma not_absent_column_always_KeyError :
  filter_dataframe df_dates
    [("date_after", VStr "2020-01-01"); ("department", VStr "QC")]
  = Raise (TypeError Unorderable)
  /\ ~ In "department" (columns df_dates)
  /\ ~ absent_column_always_KeyError.
Proof.
  assert (Hn : ~ In "department" (columns df_dates)).
  { simpl. intros [E|[]]. discriminate E. }
  split; [reflexivity|]. split; [exact Hn|].
  intros H.
  destruct (H df_dates
              [("date_after", VStr "2020-01-01"); ("department", VStr "QC")]
              "department" (VStr "QC")) as [c Hc].
  - simpl. right. left. reflexivity.
  - reflexivity.
  - discriminate.
  - discriminate.
  - exact Hn.
  - discriminate Hc.
Qed.

(** ** The queries *)

Lemma query_Result_Sample_In session r s :
  In (r, s) (query_Result_Sample session)
  <-> In r (results session) /\ In s (samples session)
      /\ r_sample_id r = Some (sample_id s).
Proof.
  unfold query_Result_Sample. rewrite in_flat_map. split.
  - intros [r' [Hr Hin]]. apply in_map_iff in Hin as [s' [[= -> ->] Hs]].
    apply filter_In in Hs as [Hs Hj]. unfold joins in Hj.
    destruct (r_sample_id r) as [i|]; [|discriminate].
    apply Z.eqb_eq in Hj. subst. tauto.
  - intros [Hr [Hs Hj]]. exists r. split; [assumption|].
    apply in_map, filter_In. split; [assumption|].
    unfold joins. rewrite Hj. apply Z.eqb_refl.
Qed.

(** C1.  Results-by-analysis with the one-element list [[A]] returns the
    frame of exactly the joined rows whose sample's analysis id equals
    [A], in the order of the join: the pairs of a result and the sample
    it refers to, where the sample belongs to analysis [A].  The frame
    has one row for each of them and no other, labelled by position, with
    the sample's name under [sample_name] and [A] under [analysis_id],
    but for a metrics document with a key of that name. *)
Theorem get_results_by_analysis_singleton (session : Session) (A : Z) :
  get_results_by_analysis session (ArgList [A])
  = return_dataframe (rows_of_analysis session A)
  /\ (forall r s,
        In (r, s) (rows_of_analysis session A)
        <-> In r (results session) /\ In s (samples session)
            /\ r_sample_id r = Some (sample_id s)
            /\ analysis_id s = Some A)
  /\ List.length (rows (get_results_by_analysis session (ArgList [A])))
     = List.length (rows_of_analysis session A)
  /\ (forall i r s,
        nth_error (rows_of_analysis session A) i = Some (r, s) ->
        exists row,
          nth_error (rows (get_results_by_analysis session (ArgList [A]))) i
          = Some row
          /\ label row = i
          /\ (~ In "sample_name" (map fst (metrics r)) ->
              column_value
                (columns (get_results_by_analysis session (ArgList [A])))
                "sample_name" row
              = Some (VStr (sample_name s))))
  /\ ((forall r s,
         In (r, s) (rows_of_analysis session A) ->
         ~ In "analysis_id" (map fst (metrics r))) ->
      forall row,
        In row (rows (get_results_by_analysis session (ArgList [A]))) ->
        column_value
          (columns (get_results_by_analysis session (ArgList [A])))
          "analysis_id" row
        = Some (VInt A)).
Proof.
  assert (Heq : get_results_by_analysis session (ArgList [A])
                = return_dataframe (rows_of_analysis session A)).
  { unfold get_results_by_analysis, rows_of_analysis. simpl. f_equal.
    apply filter_ext. intros [r s]. simpl.
    destruct (analysis_id s); simpl; [apply orb_false_r | reflexivity]. }
  assert (Hsel : forall r s,
             In (r, s) (rows_of_analysis session A)
             <-> In r (results session) /\ In s (samples session)
                 /\ r_sample_id r = Some (sample_id s)
                 /\ analysis_id s = Some A).
  { intros r s. unfold rows_of_analysis.
    rewrite filter_In, query_Result_Sample_In. simpl.
    destruct (analysis_id s) as [a|].
    - rewrite Z.eqb_eq. split.
      + intros [[H1 [H2 H3]] ->]. tauto.
      + intros [H1 [H2 [H3 [= ->]]]]. tauto.
    - split; [intros [_ H]; discriminate
             | intros [_ [_ [_ H]]]; discriminate]. }
  rewrite Heq.
  split; [reflexivity|]. split; [exact Hsel|].
  split; [apply return_dataframe_length|]. split.
  - intros i r s Hnth.
    destruct (return_dataframe_row _ _ _ Hnth) as [row [H1 [H2 H3]]].
    exists row. split; [exact H1|]. split; [exact H2|].
    intros Hn. apply H3. now apply flatten_sample_name.
  - intros Hm row Hrow.
    apply return_dataframe_In_row in Hrow as [i [[r s] [Hq Hi]]].
    destruct (return_dataframe_row _ _ _ Hq) as [row' [H1 [_ H3]]].
    assert (row' = row) by congruence. subst row'.
    assert (Hin : In (r, s) (rows_of_analysis session A))
      by (eapply nth_error_In; eauto).
    rewrite (H3 "analysis_id" (of_option VInt (analysis_id s))).
    + apply Hsel in Hin as [_ [_ [_ ->]]]. reflexivity.
    + apply flatten_analysis_id. now apply (Hm r s).
Qed.

Lemma get_results_by_analysis_singleton_witness :
  nth_error (rows_of_analysis ex_session 1) 0 = Some (ex_result, ex_sample)
  /\ List.length (rows (get_results_by_analysis ex_session (ArgList [1])))
     = 1%nat
  /\ exists row,
       nth_error (rows (get_results_by_analysis ex_session (ArgList [1]))) 0
       = Some row
       /\ label row = 0%nat
       /\ column_value
            (columns (get_results_by_analysis ex_session (ArgList [1])))
            "sample_name" row
          = Some (VStr "S01")
       /\ column_value
            (columns (get_results_by_analysis ex_session (ArgList [1])))
            "analysis_id" row
          = Some (VInt 1).
Proof.
  destruct (get_results_by_analysis_singleton ex_session 1)
    as [_ [_ [Hlen [Hrow Hid]]]].
  split; [reflexivity|]. split; [exact Hlen|].
  destruct (Hrow 0%nat ex_result ex_sample eq_refl) as [row [H1 [H2 H3]]].
  exists row. split; [exact H1|]. split; [exact H2|]. split.
  - apply H3. simpl. intros [H|[H|[]]]; discriminate H.
  - apply Hid.
    + intros r s [E|[]]. inversion E; subst. simpl.
      intros [H|[H|[]]]; discriminate H.
    + eapply nth_error_In. exact H1.
Defined.

Lemma get_results_by_analysis_falsy session (a : arg Z) :
  truthy a = false ->
  get_results_by_analysis session a
  = return_dataframe (query_Result_Sample session).
Proof.
  intros H. unfold get_results_by_analysis. now rewrite H.
Qed.

Lemma get_results_by_sample_falsy session (a : arg string) :
  truthy a = false ->
  get_results_by_sample session a
  = return_dataframe (query_Result_Sample session).
Proof.
  intros H. unfold get_results_by_sample. now rewrite H.
Qed.

(** C6.  Results-by-analysis without an identifier returns the frame of
    all the joined rows, one row for each: every pair of a result and the
    sample its foreign key refers to, whatever the sample's analysis. *)
Theorem get_results_by_analysis_None (session : Session) :
  get_results_by_analysis session ArgNone
  = return_dataframe (query_Result_Sample session)
  /\ List.length (rows (get_results_by_analysis session ArgNone))
     = List.length (query_Result_Sample session)
  /\ forall r s,
       In (r, s) (query_Result_Sample session)
       <-> In r (results session) /\ In s (samples session)
           /\ r_sample_id r = Some (sample_id s).
Proof.
  split; [reflexivity|]. split; [|apply query_Result_Sample_In].
  rewrite get_results_by_analysis_falsy by reflexivity.
  unfold return_dataframe.
  now rewrite DataFrame_of_records_length, length_map.
Qed.

(** C10.  The empty list, the integer 0 and the empty string are falsy:
    given one of them, results-by-analysis and results-by-sample do what
    they do without an argument and return the frame of all the joined
    rows; with the empty list the frame has a row for every joined row,
    not zero rows. *)
Theorem falsy_argument_is_no_filter (session : Session) :
  (get_results_by_analysis session (ArgList [])
   = get_results_by_analysis session ArgNone
   /\ get_results_by_analysis session (ArgOne 0)
      = get_results_by_analysis session ArgNone
   /\ get_results_by_sample session (ArgList [])
      = get_results_by_sample session ArgNone
   /\ get_results_by_sample session (ArgOne "")
      = get_results_by_sample session ArgNone)
  /\ get_results_by_analysis session ArgNone
     = return_dataframe (query_Result_Sample session)
  /\ get_results_by_sample session ArgNone
     = return_dataframe (query_Result_Sample session)
  /\ List.length (rows (get_results_by_analysis session (ArgList [])))
     = List.length (query_Result_Sample session)
  /\ List.length (rows (get_results_by_sample session (ArgList [])))
     = List.length (query_Result_Sample session).
Proof.
  repeat split; try reflexivity.
  - rewrite get_results_by_analysis_falsy by reflexivity.
    unfold return_dataframe.
    now rewrite DataFrame_of_records_length, length_map.
  - rewrite get_results_by_sample_falsy by reflexivity.
    unfold return_dataframe.
    now rewrite DataFrame_of_records_length, length_map.
Qed.

Lemma filter_or_Permutation {A} (f g : A -> bool) (l : list A) :
  (forall x, f x && g x = false) ->
  Permutation (filter (fun x => f x || g x) l) (filter f l ++ filter g l).
Proof.
  intros Hd. induction l as [|a l IH]; simpl; [constructor|].
  specialize (Hd a).
  destruct (f a), (g a); simpl in *; try discriminate.
  - now constructor.
  - now apply Permutation_cons_app.
  - assumption.
Qed.

Lemma rows_named_in_union session : forall S,
  NoDup S ->
  Permutation (rows_named_in session S) (flat_map (rows_named session) S).
Proof.
  unfold rows_named_in, rows_named.
  induction S as [|n S IH]; intros Hnd; simpl.
  - clear. induction (query_Result_Sample session) as [|a l IHl]; simpl;
      [constructor | assumption].
  - inversion Hnd as [|? ? Hn Hnd']; subst.
    etransitivity.
    + apply (filter_or_Permutation
               (fun rs => String.eqb (sample_name (snd rs)) n)
               (fun rs => mem (sample_name (snd rs)) S)).
      intros rs. destruct (String.eqb_spec (sample_name (snd rs)) n) as [E|E];
        [|reflexivity].
      simpl. apply mem_not_In. now rewrite E.
    + apply Permutation_app_head. now apply IH.
Qed.

(** C4, amended.  For every list [S] of sample names that is not empty,
    results-by-sample returns the frame of the joined rows whose sample
    name is in [S], each as often as the join has it: the rows named by
    some element of [S], and, when [S] lists no name twice, a
    rearrangement of the rows of its names put one after the other.  The
    frame has one row for each of them and no other, labelled by
    position, with under [sample_name] the sample's name, one of [S], but
    for a metrics document with a key of that name. *)
Theorem get_results_by_sample_union (session : Session) (S : list string) :
  S <> [] ->
  get_results_by_sample session (ArgList S)
  = return_dataframe (rows_named_in session S)
  /\ (forall rs,
        In rs (rows_named_in session S)
        <-> exists n, In n S /\ In rs (rows_named session n))
  /\ (NoDup S ->
      Permutation (rows_named_in session S)
                  (flat_map (rows_named session) S))
  /\ List.length (rows (get_results_by_sample session (ArgList S)))
     = List.length (rows_named_in session S)
  /\ (forall i rs,
        nth_error (rows_named_in session S) i = Some rs ->
        exists row,
          nth_error (rows (get_results_by_sample session (ArgList S))) i
          = Some row
          /\ label row = i
          /\ In (sample_name (snd rs)) S
          /\ (~ In "sample_name" (map fst (metrics (fst rs))) ->
              column_value
                (columns (get_results_by_sample session (ArgList S)))
                "sample_name" row
              = Some (VStr (sample_name (snd rs))))).
Proof.
  intros HS.
  assert (Heq : get_results_by_sample session (ArgList S)
                = return_dataframe (rows_named_in session S)).
  { destruct S as [|n S]; [congruence|]. reflexivity. }
  rewrite Heq. split; [reflexivity|]. split; [|split; [|split]].
  - intros rs. unfold rows_named_in, rows_named. rewrite filter_In, mem_In.
    split.
    + intros [H1 H2]. exists (sample_name (snd rs)).
      split; [assumption|]. apply filter_In. split; [assumption|].
      apply String.eqb_refl.
    + intros [n [Hn Hin]]. apply filter_In in Hin as [H1 H2].
      apply String.eqb_eq in H2. subst n. tauto.
  - apply rows_named_in_union.
  - apply return_dataframe_length.
  - intros i [r s] Hnth.
    destruct (return_dataframe_row _ _ _ Hnth) as [row [H1 [H2 H3]]].
    exists row. split; [exact H1|]. split; [exact H2|]. split.
    + apply nth_error_In in Hnth. unfold rows_named_in in Hnth.
      apply filter_In in Hnth as [_ Hm]. now apply mem_In in Hm.
    + intros Hn. apply H3. now apply flatten_sample_name.
Qed.

Lemma get_results_by_sample_union_witness :
  ["S01"; "S02"] <> []
  /\ get_results_by_sample ex_session (ArgList ["S01"; "S02"])
     = return_dataframe (rows_named_in ex_session ["S01"; "S02"])
  /\ Permutation (rows_named_in ex_session ["S01"; "S02"])
                 (flat_map (rows_named ex_session) ["S01"; "S02"])
  /\ List.length
       (rows (get_results_by_sample ex_session (ArgList ["S01"; "S02"])))
     = 2%nat
  /\ exists row,
       nth_error
         (rows (get_results_by_sample ex_session (ArgList ["S01"; "S02"]))) 1
       = Some row
       /\ label row = 1%nat
       /\ column_value
            (columns
               (get_results_by_sample ex_session (ArgList ["S01"; "S02"])))
            "sample_name" row
          = Some (VStr "S02").
Proof.
  assert (Hne : ["S01"; "S02"] <> []) by discriminate.
  destruct (get_results_by_sample_union ex_session ["S01"; "S02"] Hne)
    as [H1 [_ [H3 [H4 H5]]]].
  split; [exact Hne|]. split; [exact H1|]. split.
  { apply H3. repeat constructor; simpl.
    - intros [H|[]]. discriminate H.
    - intros []. }
  split; [exact H4|].
  destruct (H5 1%nat (mkResult 2 (Some 2) [("ph", VFloat float_7_1)],
                      mkSample 2 "S02" None None (Some 2)) eq_refl)
    as [row [R1 [R2 [_ R4]]]].
  exists row. split; [exact R1|]. split; [exact R2|].
  apply R4. simpl. intros [H|[]]. discriminate H.
Defined.

(** With the empty list of names the frame is that of every joined row,
    two here, where the union over no name has none. *)
Lemma not_by_sample_is_union :
  get_results_by_sample ex_session (ArgList [])
  = return_dataframe (query_Result_Sample ex_session)
  /\ List.length (rows (get_results_by_sample ex_session (ArgList []))) = 2%nat
  /\ flat_map (rows_named ex_session) [] = []
  /\ ~ by_sample_is_union.
Proof.
  split; [reflexivity|]. split; [reflexivity|]. split; [reflexivity|].
  intros H. destruct (H ex_session []) as [selected [Heq Hsel]].
  destruct selected as [|rs selected].
  - discriminate Heq.
  - destruct (proj1 (Hsel rs) (or_introl eq_refl)) as [n [[] _]].
Qed.

(** ** The command line *)

(** The binding itself is sound: had the function named its last
    parameter as the option does, the call would bind every value. *)
Lemma bind_arguments_matching_names today given :
  exists bound,
    bind_arguments
      ["ctx"; "date_after"; "date_before"; "department"; "analyst_name"] 1
      (click_params (display_analyses_options today) given)
    = Ok bound
    /\ map fst bound
       = ["date_after"; "date_before"; "department"; "analyst_name"].
Proof.
  eexists. split; reflexivity.
Qed.

(** C9.  The options declared for [display_analyses] bind the parameter
    names [date_after], [date_before], [department] and [analyst_name];
    the function takes a parameter [analyst], which no option binds, and
    none named [analyst_name].  So every run of the command, whatever
    options are given on the command line, fails when click calls the
    function: [analyst_name] is an unexpected keyword argument. *)
Theorem display_analyses_option_mismatch :
  (forall today,
      map (fun o => option_name (fst o)) (display_analyses_options today)
      = [Some "date_after"; Some "date_before"; Some "department";
         Some "analyst_name"])
  /\ In "analyst" display_analyses_params
  /\ ~ In "analyst_name" display_analyses_params
  /\ (forall today given,
        ~ In "analyst"
             (map fst (click_params (display_analyses_options today) given)))
  /\ forall today ctx given,
       invoke_display_analyses today ctx given
       = Raise (TypeError (UnexpectedKeyword "analyst_name")).
Proof.
  split; [reflexivity|].
  split; [simpl; tauto|].
  split.
  { simpl. intros H. repeat destruct H as [H|H]; try discriminate H.
    exact H. }
  split.
  { intros today given. simpl.
    intros H. repeat destruct H as [H|H]; try discriminate H. exact H. }
  reflexivity.
Qed.

(** * Further properties of the query module *)

(** ** [get_analyses] and [display_analyses] *)

Lemma union_keys_display (l : list Analysis) :
  l <> [] -> union_keys (map display l) = analyses_columns.
Proof.
  destruct l as [|a l]; [congruence|]. intros _.
  unfold union_keys. simpl map. simpl fold_left.
  change (add_keys [] (od_keys (display a))) with analyses_columns.
  induction l as [|b l IH]; simpl; [reflexivity|]. exact IH.
Qed.

Lemma map_number_from {A B} (f : A -> B) (l : list A) : forall k,
  number_from k (map f l)
  = map (fun ia => (fst ia, f (snd ia))) (number_from k l).
Proof.
  induction l as [|a l IH]; intros k; simpl; [reflexivity|].
  now rewrite IH.
Qed.

Lemma get_analyses_rows (session : Session) :
  analyses session <> [] ->
  get_analyses session
  = mkframe analyses_columns
            (map analysis_row (number_from 0 (analyses session))).
Proof.
  intros H. unfold get_analyses, DataFrame_of_records.
  rewrite (union_keys_display _ H), map_number_from, map_map.
  apply f_equal, map_ext. intros [i a]. reflexivity.
Qed.

Lemma number_from_labels {A} (l : list A) : forall k,
  map fst (number_from k l) = seq k (List.length l).
Proof.
  induction l as [|a l IH]; intros k; simpl; [reflexivity|].
  now rewrite IH.
Qed.

Lemma number_from_values {A} (l : list A) : forall k,
  map snd (number_from k l) = l.
Proof.
  induction l as [|a l IH]; intros k; simpl; [reflexivity|].
  now rewrite IH.
Qed.

(** X1.  The frame of a table of analyses that is not empty has the five
    columns of [Analysis.display] in its order and one row per analysis,
    in table order under the labels 0, 1, ...: the id, the name, the date
    ([None] when null), the department and the analyst. *)
Theorem get_analyses_frame (session : Session) :
  analyses session <> [] ->
  columns (get_analyses session)
  = ["analysis_id"; "analysis_name"; "date"; "department"; "analyst"]
  /\ map label (rows (get_analyses session))
     = seq 0 (List.length (analyses session))
  /\ map cells (rows (get_analyses session))
     = map analysis_cells (analyses session).
Proof.
  intros H. rewrite (get_analyses_rows _ H). simpl.
  split; [reflexivity|]. split.
  - rewrite map_map. simpl. apply number_from_labels.
  - rewrite map_map. simpl.
    rewrite <- (number_from_values (analyses session) 0) at 2.
    now rewrite map_map.
Qed.

Lemma get_analyses_frame_witness :
  columns (get_analyses ex_session) = analyses_columns
  /\ map label (rows (get_analyses ex_session)) = [0%nat; 1%nat]
  /\ map cells (rows (get_analyses ex_session))
     = [[VInt 1; VStr "assay"; VDate (mkdate 2019 12 31); VStr "QC";
         VStr "DMT"];
        [VInt 2; VStr "assay"; VDate (mkdate 2020 6 1); VStr "RD";
         VStr "DMT"]].
Proof.
  apply (get_analyses_frame ex_session). discriminate.
Defined.

(** X2.  On a database without analyses the frame has no column, so
    [display_analyses] fails on the first of its four filters that is
    truthy, with the lookup failure of that filter's column: "date" for
    the date bounds, which is what the default options give. *)
Theorem display_analyses_empty_table (ctx : Context)
    (date_after date_before department_ analyst_ : value) :
  analyses (ctx_session ctx) = [] ->
  (truthy date_after || truthy date_before = true ->
   display_analyses ctx date_after date_before department_ analyst_
   = Raise (KeyError "date"))
  /\ (truthy date_after || truthy date_before = false ->
      truthy department_ = true ->
      display_analyses ctx date_after date_before department_ analyst_
      = Raise (KeyError "department"))
  /\ (truthy date_after || truthy date_before = false ->
      truthy department_ = false -> truthy analyst_ = true ->
      display_analyses ctx date_after date_before department_ analyst_
      = Raise (KeyError "analyst"))
  /\ (truthy date_after || truthy date_before = false ->
      truthy department_ = false -> truthy analyst_ = false ->
      display_analyses ctx date_after date_before department_ analyst_
      = Ok (sent_to (ctx_output_csv ctx) (mkframe [] []))).
Proof.
  intros He. unfold display_analyses, get_analyses. rewrite He.
  change (DataFrame_of_records (map display [])) with (mkframe [] []).
  cbn [filter_dataframe String.eqb Ascii.eqb Bool.eqb].
  destruct (truthy date_after); [repeat split; try discriminate; reflexivity|].
  destruct (truthy date_before);
    [repeat split; try discriminate; reflexivity|].
  destruct (truthy department_), (truthy analyst_);
    repeat split; try discriminate; try reflexivity.
  intros _ _ _. unfold sent_to. cbn [bind].
  destruct (ctx_output_csv ctx) as [path|]; [destruct (truthy path)|];
    reflexivity.
Qed.

Lemma display_analyses_empty_table_witness :
  display_analyses ex_empty_ctx (VDate (mkdate 2015 1 1))
                   (VDate (mkdate 2020 1 1)) VNone VNone
  = Raise (KeyError "date").
Proof.
  apply (display_analyses_empty_table ex_empty_ctx); reflexivity.
Defined.

Lemma analysis_row_keeps after before dept an (ia : nat * Analysis) :
  keeps analyses_columns
        [("date_after", VDate after); ("date_before", VDate before);
         ("department", of_option VStr dept); ("analyst", of_option VStr an)]
        (analysis_row ia)
  = listed after before dept an (snd ia).
Proof.
  destruct ia as [i [id name d dep ana]].
  unfold keeps, listed, analysis_row. simpl. unfold cell_at. simpl.
  assert (Hw : forall (o : option string) (c s : string),
             (if negb (truthy (of_option VStr o)) then true
              else py_eq (VStr s) (of_option VStr o)) = wanted o s).
  { intros [w|] c s; simpl; [|reflexivity].
    unfold truthy at 1, truthy_value.
    destruct (truthy w); reflexivity. }
  destruct d as [d|]; simpl.
  - unfold py_gt, py_lt. simpl.
    destruct (date_compare d after), (date_compare d before); simpl;
      try reflexivity;
      rewrite (Hw dept "department" dep), (Hw an "analyst" ana);
      now rewrite andb_true_r.
  - reflexivity.
Qed.

Lemma analyses_applicable (session : Session) after before dept an entry :
  In entry [("date_after", VDate after); ("date_before", VDate before);
            ("department", of_option VStr dept);
            ("analyst", of_option VStr an)] ->
  entry_applicable
    (mkframe analyses_columns
             (map analysis_row (number_from 0 (analyses session))))
    entry.
Proof.
  assert (Hd : forall v : date,
             exists i,
               index_of "date" analyses_columns = Some i
               /\ forall r,
                    In r (map analysis_row
                              (number_from 0 (analyses session))) ->
                    comparable (cell_at i r) (VDate v) = true).
  { intros v. exists 2%nat. split; [reflexivity|].
    intros r Hr. apply in_map_iff in Hr as [[i a] [<- _]].
    unfold analysis_row, cell_at. simpl.
    destruct (a_date a); reflexivity. }
  intros [<-|[<-|[<-|[<-|[]]]]]; intros _; simpl;
    try apply Hd; tauto.
Qed.

(** X3.  Called with two dates and optional names of a department and
    of an analyst, on a table of analyses that is not empty,
    [display_analyses] sends out, under the five columns, exactly the
    rows of the analyses dated strictly after the first date and strictly
    before the second, of that department and that analyst where one is
    named, in table order under their labels in the full table.  An
    analysis without a date is never listed.  The frame is written to the
    csv path when one is given and not empty, and echoed otherwise. *)
Theorem display_analyses_lists (ctx : Context) (after before : date)
    (dept an : option string) :
  analyses (ctx_session ctx) <> [] ->
  display_analyses ctx (VDate after) (VDate before)
                   (of_option VStr dept) (of_option VStr an)
  = Ok (sent_to (ctx_output_csv ctx)
          (mkframe analyses_columns
             (map analysis_row
                (filter (fun ia => listed after before dept an (snd ia))
                        (number_from 0 (analyses (ctx_session ctx))))))).
Proof.
  intros H. unfold display_analyses. rewrite (get_analyses_rows _ H).
  destruct (filter_dataframe_Ok
              [("date_after", VDate after); ("date_before", VDate before);
               ("department", of_option VStr dept);
               ("analyst", of_option VStr an)]
              (mkframe analyses_columns
                 (map analysis_row
                      (number_from 0 (analyses (ctx_session ctx))))))
    as [df' Hdf].
  { intros entry. apply analyses_applicable. }
  rewrite Hdf. cbn [bind].
  apply filter_dataframe_rows in Hdf as [Hc Hr]. simpl in Hc, Hr.
  rewrite filter_map_swap in Hr.
  rewrite (filter_ext _ _ (analysis_row_keeps after before dept an)) in Hr.
  destruct df' as [cols rws]. simpl in Hc, Hr. subst cols rws.
  unfold sent_to.
  destruct (ctx_output_csv ctx) as [path|]; [destruct (truthy path)|];
    reflexivity.
Qed.

Lemma display_analyses_lists_witness :
  display_analyses ex_ctx (VDate (mkdate 2015 1 1)) (VDate (mkdate 2020 1 1))
                   (VStr "QC") VNone
  = Ok (Echo (mkframe analyses_columns
                [mkrow 0 [VInt 1; VStr "assay"; VDate (mkdate 2019 12 31);
                          VStr "QC"; VStr "DMT"]])).
Proof.
  apply (display_analyses_lists ex_ctx (mkdate 2015 1 1) (mkdate 2020 1 1)
           (Some "QC") None).
  discriminate.
Defined.

(** ** [filter_dataframe]: composition, order and repetition *)

Lemma frame_eq (a b : DataFrame) :
  columns a = columns b -> rows a = rows b -> a = b.
Proof.
  destruct a, b. simpl. now intros -> ->.
Qed.

Lemma mapM_Ok_each {A B} (f : A -> result B) (l : list A) : forall bs,
  mapM f l = Ok bs -> forall a, In a l -> exists b, f a = Ok b.
Proof.
  induction l as [|x l IH]; simpl; intros bs H a Ha; [contradiction|].
  destruct (f x) as [b|e] eqn:E; simpl in H; [|discriminate].
  destruct (mapM f l) as [bs'|e]; simpl in H; [|discriminate].
  destruct Ha as [<-|Ha]; [now exists b | now apply (IH bs')].
Qed.

Lemma mapM_cells_incl (f : value -> result bool) i (rs rs2 : list DFRow) bs :
  incl rs2 rs ->
  mapM f (map (cell_at i) rs) = Ok bs ->
  exists bs2, mapM f (map (cell_at i) rs2) = Ok bs2.
Proof.
  intros Hi H. apply mapM_total. intros x Hx.
  apply in_map_iff in Hx as [r [<- Hr]].
  apply (mapM_Ok_each _ _ _ H). apply in_map. now apply Hi.
Qed.

(** An entry that applies to a table applies to every table of the same
    columns whose rows are among its rows. *)
Lemma filter_dataframe_entry_incl df d2 entry df1 :
  columns d2 = columns df -> incl (rows d2) (rows df) ->
  filter_dataframe df [entry] = Ok df1 ->
  exists d21, filter_dataframe d2 [entry] = Ok d21.
Proof.
  intros Hc Hi H. destruct entry as [k v]. simpl in *.
  destruct (truthy v); [|now exists d2].
  destruct (String.eqb k "date_after");
    [|destruct (String.eqb k "date_before")].
  - destruct (getitem df "date") as [col|e] eqn:G; simpl in H;
      [|discriminate].
    apply getitem_Ok in G as [i [Hidx ->]].
    destruct (mapM (fun x => py_gt x v) (map (cell_at i) (rows df)))
      as [mask|e] eqn:M; simpl in H; [|discriminate].
    destruct (mapM_cells_incl _ i _ _ _ Hi M) as [mask2 M2].
    unfold getitem. rewrite Hc, Hidx. simpl. rewrite M2. simpl. eauto.
  - destruct (getitem df "date") as [col|e] eqn:G; simpl in H;
      [|discriminate].
    apply getitem_Ok in G as [i [Hidx ->]].
    destruct (mapM (fun x => py_lt x v) (map (cell_at i) (rows df)))
      as [mask|e] eqn:M; simpl in H; [|discriminate].
    destruct (mapM_cells_incl _ i _ _ _ Hi M) as [mask2 M2].
    unfold getitem. rewrite Hc, Hidx. simpl. rewrite M2. simpl. eauto.
  - destruct (getitem df k) as [col|e] eqn:G; simpl in H; [|discriminate].
    apply getitem_Ok in G as [i [Hidx ->]].
    unfold getitem. rewrite Hc, Hidx. simpl. eauto.
Qed.

Lemma filter_dataframe_incl : forall filter_kwargs df d2 df',
  columns d2 = columns df -> incl (rows d2) (rows df) ->
  filter_dataframe df filter_kwargs = Ok df' ->
  exists d2', filter_dataframe d2 filter_kwargs = Ok d2'.
Proof.
  induction filter_kwargs as [|entry rest IH]; intros df d2 df' Hc Hi H;
    [now exists d2|].
  change (entry :: rest) with ([entry] ++ rest) in *.
  rewrite filter_dataframe_app in *.
  destruct (filter_dataframe df [entry]) as [df1|e] eqn:E1;
    [|discriminate].
  destruct (filter_dataframe_entry_incl df d2 entry df1 Hc Hi E1)
    as [d21 E2].
  rewrite E2. cbn [bind] in *.
  apply filter_dataframe_rows in E1 as [Hc1 Hr1].
  apply filter_dataframe_rows in E2 as [Hc2 Hr2].
  apply (IH df1 d21 df'); [congruence | | assumption].
  rewrite Hr1, Hr2, Hc. intros r Hr.
  apply filter_In in Hr as [Hin Hk]. apply filter_In. auto.
Qed.


Lemma filter_twice {A} (f : A -> bool) (l : list A) :
  filter f (filter f l) = filter f l.
Proof.
  rewrite filter_filter. apply filter_ext. intros x. now destruct (f x).
Qed.

(** X4.  Filtering by a mapping made of two parts one after the other is
    filtering by the first part and then filtering its result by the
    second; a failure in the first part is the failure of the whole. *)
Theorem filter_dataframe_sequential (df : DataFrame)
    (pre post : list (string * value)) :
  filter_dataframe df (pre ++ post)
  = (df1 <- filter_dataframe df pre ;; filter_dataframe df1 post).
Proof.
  apply filter_dataframe_app.
Qed.



(** X6.  Filtering is idempotent: a table the filter returned is
    returned unchanged when the same mapping is applied to it again. *)
Theorem filter_dataframe_idempotent (df df' : DataFrame)
    (filter_kwargs : list (string * value)) :
  filter_dataframe df filter_kwargs = Ok df' ->
  filter_dataframe df' filter_kwargs = Ok df'.
Proof.
  intros H. pose proof (filter_dataframe_rows _ _ _ H) as [Hc Hr].
  destruct (filter_dataframe_incl filter_kwargs df df' df') as [d2 H2];
    [assumption | rewrite Hr; apply incl_filter | assumption |].
  rewrite H2. f_equal.
  apply filter_dataframe_rows in H2 as [Hc2 Hr2].
  apply frame_eq; [assumption|].
  now rewrite Hr2, Hc, Hr, filter_twice.
Qed.

Lemma filter_dataframe_idempotent_witness :
  filter_dataframe (mkframe ["date"] [mkrow 1 [VDate (mkdate 2020 6 1)]])
                   [("date_after", VDate (mkdate 2020 1 1))]
  = Ok (mkframe ["date"] [mkrow 1 [VDate (mkdate 2020 6 1)]]).
Proof.
  apply (filter_dataframe_idempotent df_dates). reflexivity.
Defined.

(** ** The queries: arguments and keys *)

Lemma existsb_same_elements {A} (f : A -> bool) (l l' : list A) :
  (forall x, In x l <-> In x l') -> existsb f l = existsb f l'.
Proof.
  intros H. apply eq_true_iff_eq. rewrite !existsb_exists.
  split; intros [x [Hx Hf]]; exists x; split; try assumption; now apply H.
Qed.

(** X7.  A single value that is truthy selects what the one-element list
    of it selects: an analysis id other than 0, and a sample name other
    than the empty string, give the same frame either way. *)
Theorem get_results_scalar_is_singleton (session : Session) :
  (forall A : Z,
      A <> 0 ->
      get_results_by_analysis session (ArgOne A)
      = get_results_by_analysis session (ArgList [A]))
  /\ (forall n : string,
        n <> "" ->
        get_results_by_sample session (ArgOne n)
        = get_results_by_sample session (ArgList [n])).
Proof.
  split.
  - intros A HA. unfold get_results_by_analysis.
    assert (T : truthy (ArgOne A) = true).
    { unfold truthy, truthy_arg, truthy, truthy_Z.
      apply negb_true_iff. now apply Z.eqb_neq. }
    rewrite T. simpl. f_equal. apply filter_ext. intros rs.
    destruct (analysis_id (snd rs)); simpl; [|reflexivity].
    now rewrite orb_false_r.
  - intros n Hn. unfold get_results_by_sample.
    assert (T : truthy (ArgOne n) = true).
    { destruct n; [congruence | reflexivity]. }
    rewrite T. simpl. f_equal. apply filter_ext. intros rs.
    now rewrite orb_false_r.
Qed.

Lemma get_results_scalar_is_singleton_witness :
  get_results_by_analysis ex_session (ArgOne 1)
  = get_results_by_analysis ex_session (ArgList [1])
  /\ get_results_by_sample ex_session (ArgOne "S02")
     = get_results_by_sample ex_session (ArgList ["S02"]).
Proof.
  split.
  - apply (proj1 (get_results_scalar_is_singleton ex_session)). discriminate.
  - apply (proj2 (get_results_scalar_is_singleton ex_session)). discriminate.
Defined.

(** X8.  A list argument counts as the set of its elements: two lists
    that are not empty and have the same elements, in whatever order and
    however often, give the same frame. *)
Theorem get_results_list_as_set (session : Session) :
  (forall l l' : list Z,
      l <> [] -> l' <> [] -> (forall a, In a l <-> In a l') ->
      get_results_by_analysis session (ArgList l)
      = get_results_by_analysis session (ArgList l'))
  /\ (forall l l' : list string,
        l <> [] -> l' <> [] -> (forall n, In n l <-> In n l') ->
        get_results_by_sample session (ArgList l)
        = get_results_by_sample session (ArgList l')).
Proof.
  split; intros l l' Hl Hl' Hsame.
  - unfold get_results_by_analysis.
    destruct l as [|a l]; [congruence|].
    destruct l' as [|a' l']; [congruence|].
    cbn -[sql_in]. f_equal. apply filter_ext. intros rs.
    unfold sql_in. destruct (analysis_id (snd rs)); [|reflexivity].
    now apply existsb_same_elements.
  - unfold get_results_by_sample.
    destruct l as [|a l]; [congruence|].
    destruct l' as [|a' l']; [congruence|].
    cbn -[sql_in]. f_equal. apply filter_ext. intros rs.
    unfold sql_in. now apply existsb_same_elements.
Qed.

Lemma get_results_list_as_set_witness :
  get_results_by_analysis ex_session (ArgList [1; 2; 1])
  = get_results_by_analysis ex_session (ArgList [2; 1])
  /\ get_results_by_sample ex_session (ArgList ["S01"; "S02"; "S01"])
     = get_results_by_sample ex_session (ArgList ["S02"; "S01"]).
Proof.
  split.
  - apply (proj1 (get_results_list_as_set ex_session));
      try discriminate.
    intros a. simpl. tauto.
  - apply (proj2 (get_results_list_as_set ex_session));
      try discriminate.
    intros n. simpl. tauto.
Defined.

(** X9.  Under a truthy argument results-by-analysis returns the frame
    of joined rows that all belong to an analysis the argument names: a
    sample whose analysis id is null is returned by no filtered query. *)
Theorem get_results_by_analysis_selected (session : Session) (x : arg Z) :
  truthy x = true ->
  exists selected,
    get_results_by_analysis session x = return_dataframe selected
    /\ incl selected (query_Result_Sample session)
    /\ forall rs,
         In rs selected ->
         exists a, analysis_id (snd rs) = Some a /\ analysis_selected x a.
Proof.
  intros T. unfold get_results_by_analysis. rewrite T.
  destruct x as [|b|l]; [discriminate| |]; simpl.
  - eexists. split; [reflexivity|]. split; [apply incl_filter|].
    intros rs Hrs. apply filter_In in Hrs as [_ H]. unfold sql_eq in H.
    destruct (analysis_id (snd rs)) as [a|]; [|discriminate].
    exists a. split; [reflexivity|]. now apply Z.eqb_eq.
  - eexists. split; [reflexivity|]. split; [apply incl_filter|].
    intros rs Hrs. apply filter_In in Hrs as [_ H]. unfold sql_in in H.
    destruct (analysis_id (snd rs)) as [a|]; [|discriminate].
    exists a. split; [reflexivity|].
    apply existsb_exists in H as [y [Hy E]]. apply Z.eqb_eq in E.
    now subst.
Qed.

Lemma get_results_by_analysis_selected_witness :
  exists selected,
    get_results_by_analysis ex_session (ArgList [2]) = return_dataframe selected
    /\ incl selected (query_Result_Sample ex_session)
    /\ forall rs,
         In rs selected ->
         exists a, analysis_id (snd rs) = Some a /\ In a [2].
Proof.
  apply (get_results_by_analysis_selected ex_session (ArgList [2])).
  reflexivity.
Defined.

(** ** The join under the primary key of [samples] *)

Lemma filter_unique_key (l : list Sample) (i : Z) :
  NoDup (map sample_id l) ->
  (List.length (filter (fun s => (i =? sample_id s)%Z) l) <= 1)%nat.
Proof.
  induction l as [|s l IH]; simpl; intros Hnd; [lia|].
  inversion Hnd as [|? ? Hn Hnd']; subst.
  destruct (Z.eqb_spec i (sample_id s)) as [E|E]; [|now apply IH].
  simpl. destruct (filter (fun s0 => i =? sample_id s0) l) as [|s' l'] eqn:F;
    [simpl; lia|].
  exfalso. apply Hn.
  assert (Hin : In s' (filter (fun s0 => i =? sample_id s0) l))
    by (rewrite F; now left).
  apply filter_In in Hin as [Hin Hi]. apply Z.eqb_eq in Hi.
  rewrite <- E, Hi. now apply in_map.
Qed.

Lemma joins_at_most_one (l : list Sample) (r : Result) :
  NoDup (map sample_id l) ->
  (List.length (filter (joins r) l) <= 1)%nat.
Proof.
  intros Hnd. unfold joins. destruct (r_sample_id r) as [i|].
  - now apply filter_unique_key.
  - clear. induction l; simpl; [lia | assumption].
Qed.

Lemma joins_exactly_one (l : list Sample) (r : Result) :
  NoDup (map sample_id l) ->
  (exists s, In s l /\ r_sample_id r = Some (sample_id s)) ->
  exists s, filter (joins r) l = [s].
Proof.
  intros Hnd [s [Hs Hr]].
  pose proof (joins_at_most_one l r Hnd) as Hle.
  assert (Hin : In s (filter (joins r) l)).
  { apply filter_In. split; [assumption|]. unfold joins. rewrite Hr.
    apply Z.eqb_refl. }
  destruct (filter (joins r) l) as [|x [|y t]]; simpl in *;
    [contradiction | now exists x | lia].
Qed.

(** X10.  With [sample_id] the primary key of the samples, no two alike,
    a result joins at most one sample: the join, and with it the frame of
    an unfiltered query, has at most one row per result; and when every
    result refers to a sample of the table it has exactly one row per
    result, in the order of the results. *)
Theorem join_one_row_per_result (session : Session) :
  NoDup (map sample_id (samples session)) ->
  (List.length (rows (get_results_by_analysis session ArgNone))
   <= List.length (results session))%nat
  /\ ((forall r,
          In r (results session) ->
          exists s, In s (samples session)
                    /\ r_sample_id r = Some (sample_id s)) ->
      map fst (query_Result_Sample session) = results session
      /\ List.length (rows (get_results_by_analysis session ArgNone))
         = List.length (results session)).
Proof.
  intros Hnd.
  assert (Hlen : List.length (rows (get_results_by_analysis session ArgNone))
                 = List.length (query_Result_Sample session)).
  { rewrite get_results_by_analysis_falsy by reflexivity.
    unfold return_dataframe.
    now rewrite DataFrame_of_records_length, length_map. }
  rewrite Hlen. unfold query_Result_Sample. split.
  - induction (results session) as [|r rs IH]; simpl; [lia|].
    rewrite length_app, length_map.
    pose proof (joins_at_most_one (samples session) r Hnd). lia.
  - intros Hfk.
    assert (Hfst : map fst
                     (flat_map
                        (fun r => map (pair r)
                                      (filter (joins r) (samples session)))
                        (results session))
                   = results session).
    { induction (results session) as [|r rs IH]; simpl; [reflexivity|].
      destruct (joins_exactly_one (samples session) r Hnd) as [s ->].
      { apply Hfk. now left. }
      simpl. f_equal. apply IH. intros r' Hr'. apply Hfk. now right. }
    split; [exact Hfst|].
    rewrite <- Hfst at 2. now rewrite length_map.
Qed.

Lemma join_one_row_per_result_witness :
  map fst (query_Result_Sample ex_session) = results ex_session
  /\ List.length (rows (get_results_by_analysis ex_session ArgNone))
     = List.length (results ex_session).
Proof.
  assert (Hnd : NoDup (map sample_id (samples ex_session))).
  { repeat constructor; simpl.
    - intros [H|[]]. discriminate H.
    - intros []. }
  apply (proj2 (join_one_row_per_result ex_session Hnd)).
  intros r [<-|[<-|[]]].
  - exists ex_sample. split; [now left | reflexivity].
  - exists (mkSample 2 "S02" None None (Some 2)).
    split; [right; now left | reflexivity].
Defined.

(** ** The shape of the frame of joined rows *)

Lemma add_keys_prefix ks : forall cols,
  exists extra, add_keys cols ks = cols ++ extra.
Proof.
  induction ks as [|k ks IH]; intros cols; simpl.
  - exists []. now rewrite app_nil_r.
  - destruct (mem k cols).
    + apply IH.
    + destruct (IH (cols ++ [k])) as [extra ->].
      exists (k :: extra). now rewrite <- app_assoc.
Qed.

Lemma union_keys_acc_prefix records : forall acc,
  exists extra,
    fold_left (fun cols r => add_keys cols (od_keys r)) records acc
    = acc ++ extra.
Proof.
  induction records as [|r records IH]; intros acc; simpl.
  - exists []. now rewrite app_nil_r.
  - destruct (add_keys_prefix (od_keys r) acc) as [e1 ->].
    destruct (IH (acc ++ e1)) as [e2 ->].
    exists (e1 ++ e2). now rewrite app_assoc.
Qed.

Lemma return_dataframe_numbered query :
  return_dataframe query
  = mkframe (columns (return_dataframe query))
            (map (flat_row (columns (return_dataframe query)))
                 (number_from 0 query)).
Proof.
  unfold return_dataframe, DataFrame_of_records. simpl.
  now rewrite map_number_from, map_map.
Qed.

(** X11.  The frame of a query that found joined rows begins with the
    columns [sample_name] and [analysis_id], in this order, before any
    column of a metric, and its rows carry the labels 0, 1, ... in the
    order of the join. *)
Theorem return_dataframe_shape (query : list (Result * Sample)) :
  query <> [] ->
  (exists metric_columns,
      columns (return_dataframe query)
      = "sample_name" :: "analysis_id" :: metric_columns)
  /\ map label (rows (return_dataframe query))
     = seq 0 (List.length query).
Proof.
  intros Hq. split.
  - destruct query as [|[result sample] query]; [congruence|].
    unfold return_dataframe, DataFrame_of_records, union_keys. simpl.
    rewrite od_keys_update.
    change (od_keys (od_of_items _)) with ["sample_name"; "analysis_id"].
    destruct (add_keys_prefix (map fst (metrics result))
                ["sample_name"; "analysis_id"]) as [e1 ->].
    change (add_keys [] (["sample_name"; "analysis_id"] ++ e1))
      with (add_keys ["sample_name"; "analysis_id"] e1).
    destruct (add_keys_prefix e1 ["sample_name"; "analysis_id"]) as [e2 ->].
    destruct (union_keys_acc_prefix (map flatten_record query)
                (["sample_name"; "analysis_id"] ++ e2)) as [e3 ->].
    exists (e2 ++ e3). reflexivity.
  - rewrite return_dataframe_numbered. simpl. rewrite map_map. simpl.
    apply number_from_labels.
Qed.

Lemma return_dataframe_shape_witness :
  (exists metric_columns,
      columns (return_dataframe ex_mixed)
      = "sample_name" :: "analysis_id" :: metric_columns)
  /\ map label (rows (return_dataframe ex_mixed)) = [0%nat; 1%nat].
Proof.
  apply (return_dataframe_shape ex_mixed). discriminate.
Defined.

(** ** The tabular filter against the query filter *)

Lemma py_eq_int (a b : Z) : py_eq (VInt a) (VInt b) = (a =? b).
Proof.
  unfold py_eq. simpl. unfold Qeq_bool. simpl. now rewrite !Z.mul_1_r.
Qed.

Lemma filter_numbered {A} (P : A -> bool) (l : list A) : forall k,
  map snd (filter (fun ia => P (snd ia)) (number_from k l)) = filter P l.
Proof.
  induction l as [|a l IH]; intros k; simpl; [reflexivity|].
  destruct (P a); simpl; now rewrite IH.
Qed.

Lemma number_from_In {A} (l : list A) k (ia : nat * A) :
  In ia (number_from k l) -> In (snd ia) l.
Proof.
  intros H. rewrite <- (number_from_values l k). now apply in_map.
Qed.

(** X12.  Filtering the frame of all the joined rows by
    [{"analysis_id": A}] keeps the rows of exactly the joined records
    that results-by-analysis selects for [A], under the labels and the
    columns they have in the full frame.  This holds for an id other
    than 0, when the join is not empty and no metrics document has a key
    named [analysis_id] of its own. *)
Theorem tabular_filter_agrees_with_query (session : Session) (A : Z) :
  A <> 0 ->
  query_Result_Sample session <> [] ->
  (forall rs,
      In rs (query_Result_Sample session) ->
      ~ In "analysis_id" (map fst (metrics (fst rs)))) ->
  exists kept,
    filter_dataframe (get_results_by_analysis session ArgNone)
                     [("analysis_id", VInt A)]
    = Ok (mkframe
            (columns (get_results_by_analysis session ArgNone))
            (map (flat_row
                    (columns (get_results_by_analysis session ArgNone)))
                 kept))
    /\ map snd kept = rows_of_analysis session A
    /\ incl kept (number_from 0 (query_Result_Sample session)).
Proof.
  intros HA Hq Hm.
  change (get_results_by_analysis session ArgNone)
    with (return_dataframe (query_Result_Sample session)).
  set (q := query_Result_Sample session) in *.
  set (cols := columns (return_dataframe q)).
  set (sel := fun ir : nat * (Result * Sample) =>
                match analysis_id (snd (snd ir)) with
                | Some a => a =? A
                | None => false
                end).
  exists (filter sel (number_from 0 q)).
  split; [|split].
  - assert (Hin : In "analysis_id" cols).
    { destruct q as [|rs q'] eqn:Eq; [congruence|].
      apply return_dataframe_columns. exists rs.
      split; [now left|]. apply flatten_record_keys. tauto. }
    destruct (index_of_In _ _ Hin) as [i Hi].
    assert (T : truthy (VInt A) = true).
    { unfold truthy, truthy_value, truthy, truthy_Z.
      apply negb_true_iff. now apply Z.eqb_neq. }
    unfold filter_dataframe. rewrite T.
    cbn [String.eqb Ascii.eqb Bool.eqb].
    unfold getitem. fold cols. rewrite Hi. cbn [bind]. f_equal.
    rewrite (masked_rows (return_dataframe q) "analysis_id" i
               (fun x => py_eq x (VInt A)) Hi).
    fold cols. f_equal.
    rewrite (return_dataframe_numbered q). cbn [rows]. fold cols.
    rewrite filter_map_swap. f_equal.
    apply filter_ext_in. intros [n [result sample]] Hir.
    apply number_from_In in Hir. simpl in Hir.
    unfold flat_row. cbn [fst snd].
    rewrite (column_value_map _ cols "analysis_id" n Hin).
    unfold cell_of. rewrite flatten_record_get.
    pose proof (Hm _ Hir) as Hno. simpl in Hno.
    apply last_value_None in Hno. rewrite Hno. simpl.
    unfold sel. simpl.
    destruct (analysis_id sample) as [a|]; simpl;
      [apply py_eq_int | reflexivity].
  - unfold rows_of_analysis. fold q.
    apply (filter_numbered
             (fun rs => match analysis_id (snd rs) with
                        | Some a => a =? A
                        | None => false
                        end)).
  - apply incl_filter.
Qed.

Lemma tabular_filter_agrees_with_query_witness :
  exists kept,
    filter_dataframe (get_results_by_analysis ex_session ArgNone)
                     [("analysis_id", VInt 2)]
    = Ok (mkframe
            (columns (get_results_by_analysis ex_session ArgNone))
            (map (flat_row
                    (columns (get_results_by_analysis ex_session ArgNone)))
                 kept))
    /\ map snd kept = rows_of_analysis ex_session 2
    /\ incl kept (number_from 0 (query_Result_Sample ex_session)).
Proof.
  apply (tabular_filter_agrees_with_query ex_session 2).
  - discriminate.
  - discriminate.
  - intros rs [<-|[<-|[]]]; simpl.
    + intros [H|[H|[]]]; discriminate H.
    + intros [H|[]]; discriminate H.
Defined.

(** ** Date bounds of the wrong type *)

Lemma filter_dataframe_date_bound_head (df : DataFrame) (k : string)
    (v : value) (rest : list (string * value)) (i : nat) (r : DFRow) :
  k = "date_after" \/ k = "date_before" ->
  truthy v = true -> is_null v = false ->
  index_of "date" (columns df) = Some i ->
  In r (rows df) ->
  is_null (cell_at i r) = false ->
  py_compare (cell_at i r) v = None ->
  filter_dataframe df ((k, v) :: rest) = Raise (TypeError Unorderable).
Proof.
  intros Hk Tv Nv Hi Hr Nc Hcmp.
  assert (Hgt : py_gt (cell_at i r) v = Raise (TypeError Unorderable)).
  { unfold py_gt. now rewrite Nc, Nv, Hcmp. }
  assert (Hlt : py_lt (cell_at i r) v = Raise (TypeError Unorderable)).
  { unfold py_lt. now rewrite Nc, Nv, Hcmp. }
  assert (Hcell : In (cell_at i r) (map (cell_at i) (rows df)))
    by now apply in_map.
  destruct Hk as [-> | ->]; simpl; rewrite Tv; unfold getitem; rewrite Hi;
    cbn [bind].
  - destruct (mapM (fun x => py_gt x v) (map (cell_at i) (rows df)))
      as [mask|e] eqn:M; cbn [bind].
    + destruct (mapM_Ok_each _ _ _ M _ Hcell) as [b Hb]. congruence.
    + f_equal. eapply mapM_py_Raise; [|exact M].
      intros x; apply py_gt_Raise.
  - destruct (mapM (fun x => py_lt x v) (map (cell_at i) (rows df)))
      as [mask|e] eqn:M; cbn [bind].
    + destruct (mapM_Ok_each _ _ _ M _ Hcell) as [b Hb]. congruence.
    + f_equal. eapply mapM_py_Raise; [|exact M].
      intros x; apply py_lt_Raise.
Qed.

(** X13.  Wherever it stands in the mapping, a date bound with a truthy
    value that is not null makes the filter fail with a type error when
    its turn comes with a row left whose [date] cell is not null and of a
    type Python does not order with the bound's, such as a date against a
    string: that is, when the entries before it apply without error and
    keep such a row.  The entries after it are not looked at. *)
Theorem filter_dataframe_date_type_error (df df1 : DataFrame)
    (pre rest : list (string * value)) (k : string) (v : value)
    (i : nat) (r : DFRow) :
  k = "date_after" \/ k = "date_before" ->
  truthy v = true -> is_null v = false ->
  index_of "date" (columns df) = Some i ->
  filter_dataframe df pre = Ok df1 ->
  In r (rows df1) ->
  is_null (cell_at i r) = false ->
  py_compare (cell_at i r) v = None ->
  filter_dataframe df (pre ++ (k, v) :: rest) = Raise (TypeError Unorderable).
Proof.
  intros Hk Tv Nv Hi Hpre Hr Nc Hcmp.
  rewrite filter_dataframe_app, Hpre. cbn [bind].
  apply (filter_dataframe_date_bound_head df1 k v rest i r); try assumption.
  apply filter_dataframe_rows in Hpre as [-> _]. assumption.
Qed.

Lemma filter_dataframe_date_type_error_witness :
  filter_dataframe df_dates
    [("date_after", VDate (mkdate 2020 1 1));
     ("date_before", VStr "2021-01-01"); ("date", VNone)]
  = Raise (TypeError Unorderable).
Proof.
  apply (filter_dataframe_date_type_error df_dates
           (mkframe ["date"] [mkrow 1 [VDate (mkdate 2020 6 1)]])
           [("date_after", VDate (mkdate 2020 1 1))] [("date", VNone)]
           "date_before" (VStr "2021-01-01") 0
           (mkrow 1 [VDate (mkdate 2020 6 1)])).
  - right. reflexivity.
  - reflexivity.
  - reflexivity.
  - reflexivity.
  - reflexivity.
  - simpl. left. reflexivity.
  - reflexivity.
  - reflexivity.
Defined.

(** ** When the filter returns *)

(** X14.  The filter returns a table, with the columns it had and rows
    from among its rows, whenever every entry with a truthy value reads a
    column the table has and every date bound can be ordered with the
    [date] column: each of its cells is null or of a type Python orders
    with the bound, and, for a bound that is not a number, the column is
    one of objects, holding [None], a string or a date in some row. *)
Theorem filter_dataframe_returns (df : DataFrame)
    (filter_kwargs : list (string * value)) :
  (forall entry,
      In entry filter_kwargs -> entry_surely_applicable df entry) ->
  exists df',
    filter_dataframe df filter_kwargs = Ok df'
    /\ columns df' = columns df
    /\ incl (rows df') (rows df).
Proof.
  intros H.
  destruct (filter_dataframe_Ok filter_kwargs df) as [df' Hdf].
  { intros entry Hin. exact (proj1 (H entry Hin)). }
  exists df'. split; [assumption|].
  apply filter_dataframe_rows in Hdf as [Hc Hr].
  split; [assumption|]. rewrite Hr. apply incl_filter.
Qed.

Lemma filter_dataframe_returns_witness :
  exists df',
    filter_dataframe df_dates
      [("date_after", VDate (mkdate 2020 1 1)); ("date", VNone)]
    = Ok df'
    /\ columns df' = columns df_dates
    /\ incl (rows df') (rows df_dates).
Proof.
  apply (filter_dataframe_returns df_dates).
  intros entry [<-|[<-|[]]].
  - split.
    + intros _. exists 0%nat. split; [reflexivity|].
      intros r [<-|[<-|[]]]; reflexivity.
    + intros _ _ _ _ i Hi. inversion Hi; subst i.
      exists (mkrow 0 [VDate (mkdate 2019 12 31)]).
      split; [now left|]. split; [discriminate | reflexivity].
  - split.
    + intros T. discriminate T.
    + intros T. discriminate T.
Defined.

(** X15.  A table is returned only if every entry with a truthy value
    found its column: the column [date] for [date_after] and
    [date_before], the column of its own name for any other key. *)
Theorem filter_dataframe_needs_columns (df df' : DataFrame)
    (filter_kwargs : list (string * value)) (k : string) (v : value) :
  filter_dataframe df filter_kwargs = Ok df' ->
  In (k, v) filter_kwargs -> truthy v = true ->
  In (column_read k) (columns df).
Proof.
  intros H Hin Tv. apply in_split in Hin as [pre [post ->]].
  rewrite filter_dataframe_app in H.
  destruct (filter_dataframe df pre) as [df1|e] eqn:Hpre; [|discriminate].
  cbn [bind] in H. apply filter_dataframe_rows in Hpre as [Hc _].
  rewrite <- Hc. simpl in H. rewrite Tv in H. unfold column_read.
  destruct (String.eqb k "date_after");
    [|destruct (String.eqb k "date_before")]; simpl.
  - destruct (getitem df1 "date") as [col|e] eqn:G; [|discriminate].
    apply getitem_Ok in G as [i [Hi _]]. eapply index_of_Some_In; eauto.
  - destruct (getitem df1 "date") as [col|e] eqn:G; [|discriminate].
    apply getitem_Ok in G as [i [Hi _]]. eapply index_of_Some_In; eauto.
  - destruct (getitem df1 k) as [col|e] eqn:G; [|discriminate].
    apply getitem_Ok in G as [i [Hi _]]. eapply index_of_Some_In; eauto.
Qed.

Lemma filter_dataframe_needs_columns_witness :
  In (column_read "date_after") (columns df_dates).
Proof.
  apply (filter_dataframe_needs_columns df_dates
           (mkframe ["date"] [mkrow 1 [VDate (mkdate 2020 6 1)]])
           [("date_after", VDate (mkdate 2020 1 1))]
           "date_after" (VDate (mkdate 2020 1 1))).
  - reflexivity.
  - left. reflexivity.
  - reflexivity.
Defined.
